(** * Document tree, section fetching and the refine loop

    A shallow embedding of [app/preprocessing/adobe/model.py] and
    [app/llm.py], followed by the properties of the specification that
    were checked against it.

    Conventions of the embedding:
    - a Python [str] is a [string]; each [ascii] stands for the code point
      of the same number, so the text covered is the one made of code
      points below 256;
    - a raised exception is the [Err] case of [result];
    - a Python [dict] keyed by strings is a [gmap string _], a [set] of
      integers a [gset Z];
    - the language model is a record of functions from request to
      response, and every request that is answered is appended to a log. *)

From Stdlib Require Import Ascii String ZArith.
From stdpp Require Import base option list sorting gmap strings.

Local Open Scope string_scope.
Local Open Scope nat_scope.

#[local] Set Warnings "-register-all".

(** ** Exceptions and fallible computations *)

Inductive exn : Type :=
  | KeyError (key : string)
  | AttributeError (type_name attr : string)
  | TypeError (msg : string)
  | StopIteration
  | ServiceError (msg : string)
  | ValueError (msg : string).

Inductive result (A : Type) : Type :=
  | Ok (a : A)
  | Err (e : exn).
Arguments Ok {A} a.
Arguments Err {A} e.

#[global] Instance result_ret : MRet result := fun A a => Ok a.
#[global] Instance result_bind : MBind result := fun A B f m =>
  match m with
  | Ok a => f a
  | Err e => Err e
  end.

Definition is_ok {A} (r : result A) : bool :=
  match r with Ok _ => true | Err _ => false end.

(** A list comprehension [[f(x) for x in l]] whose element expression can
    raise: elements are evaluated left to right and the first exception
    ends the evaluation. *)
Definition comprehension {A B} (f : A → result B) : list A → result (list B) :=
  fix go l :=
    match l with
    | [] => Ok []
    | x :: r => y ← f x; ys ← go r; Ok (y :: ys)
    end.

(** [for x in xs: s = body(s, x)], in any monad of the development. *)
Fixpoint for_in {M : Type → Type} `{!MBind M, !MRet M} {S A}
    (xs : list A) (body : S → A → M S) (s : S) : M S :=
  match xs with
  | [] => mret s
  | x :: r => s' ← body s x; for_in r body s'
  end.

(** ** Builtins on strings *)

Definition code (c : ascii) : nat := nat_of_ascii c.

(** [str.isspace] on one character, for code points below 256: the ASCII
    blanks and separators, NEL (0x85) and the no-break space (0xa0). *)
Definition isspace (c : ascii) : bool :=
  let n := code c in
  (9 <=? n) && (n <=? 13) || (28 <=? n) && (n <=? 32) || (n =? 133) || (n =? 160).

(** [\d] of a [str] pattern: the decimal digits, which below 256 are 0-9. *)
Definition is_decimal (c : ascii) : bool :=
  let n := code c in (48 <=? n) && (n <=? 57).

(** One character of [str.isdigit]: the decimal digits and the
    superscripts two, three and one. *)
Definition isdigit_char (c : ascii) : bool :=
  let n := code c in
  is_decimal c || (n =? 178) || (n =? 179) || (n =? 185).

(** One character of [str.isnumeric]: the above and the vulgar fractions. *)
Definition isnumeric_char (c : ascii) : bool :=
  let n := code c in
  isdigit_char c || (n =? 188) || (n =? 189) || (n =? 190).

Fixpoint all_chars (p : ascii → bool) (s : string) : bool :=
  match s with
  | EmptyString => true
  | String c r => p c && all_chars p r
  end.

Definition nonempty (s : string) : bool :=
  match s with EmptyString => false | String _ _ => true end.

(** [s.isdigit()] and [s.isnumeric()]: at least one character, all of the
    class. *)
Definition isdigit (s : string) : bool := nonempty s && all_chars isdigit_char s.
Definition isnumeric (s : string) : bool := nonempty s && all_chars isnumeric_char s.

(** [s.rstrip()] *)
Fixpoint rstrip (s : string) : string :=
  match s with
  | EmptyString => EmptyString
  | String c r =>
      match rstrip r with
      | EmptyString => if isspace c then EmptyString else String c EmptyString
      | r' => String c r'
      end
  end.

(** [s.lstrip()] *)
Fixpoint lstrip (s : string) : string :=
  match s with
  | EmptyString => EmptyString
  | String c r => if isspace c then lstrip r else s
  end.

(** ** The two regular expressions of model.py *)

Definition is_leader (c : ascii) : bool :=
  (code c =? 95) || (code c =? 46).

(** What a pending run of [_] and [.] characters contributes once it has
    ended: nothing when [(\_|\.){3,}] matches it, itself otherwise. *)
Definition flush_run (run : string) : string :=
  if 3 <=? String.length run then EmptyString else run.

(** [re.sub(r"(\_|\.){3,}", "", s)]. The quantifier is greedy and matches
    are taken leftmost, so each maximal run of [_]/[.] characters is one
    candidate match; [run] is the run read so far. *)
Fixpoint sub_leaders_from (run : string) (s : string) : string :=
  match s with
  | EmptyString => flush_run run
  | String c r =>
      if is_leader c then sub_leaders_from (run +:+ String c EmptyString) r
      else flush_run run +:+ String c (sub_leaders_from EmptyString r)
  end.

Definition sub_leaders (s : string) : string := sub_leaders_from EmptyString s.

(** Where the matcher of [^(\d+\.?)+] stands inside the title. *)
Inductive numbering_state : Type :=
  | AtStart      (* nothing matched yet *)
  | InDigits     (* inside a [\d+] *)
  | AfterDot.    (* just after the optional dot of a group *)

(** The part of [s] left after the match of [^(\d+\.?)+]; the whole of [s]
    when there is no match. Each group takes all the digits it can, then a
    dot when there is one, and another group starts only on a digit. *)
Fixpoint numbering_rest (st : numbering_state) (s : string) : string :=
  match s with
  | EmptyString => EmptyString
  | String c r =>
      match st with
      | AtStart => if is_decimal c then numbering_rest InDigits r else s
      | InDigits =>
          if is_decimal c then numbering_rest InDigits r
          else if code c =? 46 then numbering_rest AfterDot r
          else s
      | AfterDot => if is_decimal c then numbering_rest InDigits r else s
      end
  end.

(** [re.sub(r"^(\d+\.?)+", "", s)] *)
Definition sub_numbering (s : string) : string := numbering_rest AtStart s.

(** ** Values of untyped positions

    [Dict[str, Any]] positions (the raw JSON of an element, the structured
    metadata) hold values of this type; a Python dict keeps the order in
    which its keys were inserted. *)
Inductive pyval : Type :=
  | PNone
  | PBool (b : bool)
  | PInt (z : Z)
  | PStr (s : string)
  | PList (l : list pyval)
  | PDict (d : list (string * pyval)).

(** Truth value of an object in a condition. *)
Definition truthy (v : pyval) : bool :=
  match v with
  | PNone => false
  | PBool b => b
  | PInt z => negb (z =? 0)%Z
  | PStr s => nonempty s
  | PList l => match l with [] => false | _ => true end
  | PDict d => match d with [] => false | _ => true end
  end.

Definition optional_str (o : option string) : pyval :=
  match o with
  | Some s => PStr s
  | None => PNone
  end.

Definition keys (v : pyval) : list string :=
  match v with
  | PDict d => d.*1
  | _ => []
  end.

(** ** model.py: InterimElement *)

Module InterimElement.

Record t : Type := {
  raw : gmap string pyval;
  is_aside : bool;
  path : string
}.

(** The [text] property. [re.sub] raises [TypeError] on a subject that
    is not a string. *)
Definition text (self : t) : result (option string) :=
  match raw self !! "Text" with
  | None => Ok None
  | Some v =>
      if truthy v then
        match v with
        | PStr result0 =>
            (* Remove 3x or more consecutive underscores or dots *)
            let result1 := sub_leaders result0 in
            (* Remove trailing whitespace *)
            let result2 := rstrip result1 in
            (* Check if is numeric or is digit and return None if so *)
            if isnumeric result2 || isdigit result2 then Ok None
            (* Remove empty paragraphs *)
            else if bool_decide (result2 = "") || bool_decide (result2 = String "010" "")
            then Ok None
            else Ok (Some result2)
        | _ => Err (TypeError "expected string or bytes-like object")
        end
      else Ok None
  end.

Definition page (self : t) : option pyval := raw self !! "Page".
Definition full_path (self : t) : option pyval := raw self !! "Path".

(** An element whose raw JSON carries the given text. *)
Definition of_text (s : string) : t :=
  {| raw := {[ "Text" := PStr s ]}; is_aside := false; path := "" |}.

End InterimElement.

(** ** model.py: TextOrigin, Paragraph

    The [text] property of a paragraph renders tables through pandas and
    is left out. *)

Inductive TextOrigin : Type := TOC | PARAGRAPH | LIST | TABLE | FIGURE.

Record Paragraph : Type := {
  raw_text : string;
  origin : TextOrigin;
  aside : bool
}.

(** ** model.py: Section and Document

    [parent] is a weak reference, kept as the address of the parent
    object. [extra] holds the attributes attached to an instance after its
    construction (the class defines no [text], which llm.py reads from its
    sections); a name that is also a field or a property of the class is
    never looked up there. *)
Definition address : Type := positive.

Inductive Section : Type := Build_Section {
  id : string;
  title : option string;
  pages : gset Z;
  section_type : option string;
  paragraphs : list Paragraph;
  parent : option address;
  subsections : list Section;
  extra : gmap string string
}.

(** [Section.__init__]. The [id] argument is not stored. *)
Definition Section_init (id0 : string) (title0 : option string)
    (pages0 : option (gset Z)) (section_type0 : option string)
    (paragraphs0 : option (list Paragraph))
    (subsections0 : option (list Section)) (parent0 : option address) : Section :=
  {| id := "";
     title := title0;
     pages := default ∅ pages0;
     section_type := section_type0;
     paragraphs := default [] paragraphs0;
     parent := parent0;
     subsections := default [] subsections0;
     extra := ∅ |}.

(** [sorted] on integers and on strings (ascending, code point order). *)
Definition sorted_ints (l : list Z) : list Z := merge_sort Z.le l.

Definition str_le (a b : string) : Prop := (a <=? b)%string = true.

#[global] Instance str_le_dec a b : Decision (str_le a b).
Proof. unfold str_le. apply _. Defined.

Definition sorted (l : list string) : list string := merge_sort str_le l.

(** The [starting_page] property. *)
Definition starting_page (self : Section) : option Z :=
  match sorted_ints (elements (pages self)) with
  | [] => None
  | p :: _ => Some p
  end.

(** The [title_clean] property. [re.sub] raises on a title that is None. *)
Definition title_clean (self : Section) : result string :=
  match title self with
  | Some t => Ok (lstrip (sub_numbering t))
  | None => Err (TypeError "expected string or bytes-like object")
  end.

(** [Document.__init__] *)
Definition Document_init (title0 : option string) (pages0 : option (gset Z))
    (paragraphs0 : option (list Paragraph))
    (subsections0 : option (list Section)) (parent0 : option address) : Section :=
  Section_init "root" title0 pages0 (Some "document") paragraphs0 subsections0 parent0.

(** ** llm.py: the objects stored in a summary mapping

    [SectionSummaryDict] is declared as [Dict[str, Optional[str]]], and
    the code reads attributes from the stored values, so a stored value is
    any of the objects below. *)
Record SectionSummaryOutput : Type := { summary : option string }.

Inductive pyobj : Type :=
  | ObjNone
  | ObjStr (s : string)
  | ObjSummaryOutput (o : SectionSummaryOutput)
  | ObjSection (s : Section).

Definition type_name (o : pyobj) : string :=
  match o with
  | ObjNone => "NoneType"
  | ObjStr _ => "str"
  | ObjSummaryOutput _ => "SectionSummaryOutput"
  | ObjSection _ => "Section"
  end.

(** An attribute of a section that the class does not define. *)
Definition Section_attr (self : Section) (name : string) : result string :=
  match extra self !! name with
  | Some v => Ok v
  | None => Err (AttributeError "Section" name)
  end.

(** [o.title_clean], [o.id], [o.text] and [o.summary] on a stored value. *)
Definition attr_title_clean (o : pyobj) : result string :=
  match o with
  | ObjSection s => title_clean s
  | _ => Err (AttributeError (type_name o) "title_clean")
  end.

Definition attr_id (o : pyobj) : result string :=
  match o with
  | ObjSection s => Ok (id s)
  | _ => Err (AttributeError (type_name o) "id")
  end.

Definition attr_text (o : pyobj) : result string :=
  match o with
  | ObjSection s => Section_attr s "text"
  | _ => Err (AttributeError (type_name o) "text")
  end.

Definition attr_summary (o : pyobj) : result (option string) :=
  match o with
  | ObjSummaryOutput r => Ok (summary r)
  | ObjSection s => v ← Section_attr s "summary"; Ok (Some v)
  | _ => Err (AttributeError (type_name o) "summary")
  end.

(** [d[k]] *)
Definition getitem {V} (d : gmap string V) (k : string) : result V :=
  match d !! k with
  | Some v => Ok v
  | None => Err (KeyError k)
  end.

(** ** llm.py: FetchSectionsTool *)

(** The dict [{"title": .., "id": .., "text": ..}] built for one section. *)
Record SectionRecord : Type := {
  rec_title : string;
  rec_id : string;
  rec_text : string
}.

Module FetchSectionsTool.

Definition name : string := "fetch_sections".

(** The dict built for one section: title, then id, then text. *)
Definition section_record (section : pyobj) : result SectionRecord :=
  t ← attr_title_clean section;
  i ← attr_id section;
  x ← attr_text section;
  Ok {| rec_title := t; rec_id := i; rec_text := x |}.

(** The body of the loop of [_run]: look the id up, build the record,
    append it. *)
Definition fetch_one (section_summaries : gmap string pyobj)
    (sections : list SectionRecord) (section_id : string)
    : result (list SectionRecord) :=
  section ← getitem section_summaries section_id;
  result0 ← section_record section;
  Ok (sections ++ [result0])%list.

Definition _run (section_summaries : gmap string pyobj) (reasoning : string)
    (section_ids : list string) : result (list SectionRecord) :=
  for_in (sorted section_ids) (fetch_one section_summaries) [].

(** The tool is a pydantic model (langchain's BaseTool, which forbids
    extra fields): an attribute can be assigned only if the class or its
    base declares a field of that name. *)
Definition declared_fields : list string :=
  [ "name"; "description"; "args_schema"; "return_direct"; "verbose";
    "callbacks"; "callback_manager"; "tags"; "metadata"; "handle_tool_error" ].

Record t : Type := { section_summaries : gmap string pyobj }.

(** [self.attr = value] on the tool; the message is the one of pydantic
    without its quotation marks. *)
Definition setattr (attr : string) : result unit :=
  if bool_decide (attr ∈ declared_fields) then Ok tt
  else Err (ValueError ("FetchSectionsTool object has no field " +:+ attr)).

(** [FetchSectionsTool.__init__]: the mapping is assigned to
    [self.section_summaries], then the base class is initialised. *)
Definition init (section_summaries0 : gmap string pyobj) : result t :=
  _ ← setattr "section_summaries";
  Ok {| section_summaries := section_summaries0 |}.

End FetchSectionsTool.

(** ** llm.py: RefineIO and DocumentStructuredMetadata *)

Record RefineIO : Type := {
  intermediate_answer : string;
  section_ids : list string
}.

Module DocumentStructuredMetadata.

Fixpoint _create_structured_metadata (section : Section)
    (section_summaries : gmap string pyobj) : result pyval :=
  if bool_decide (section_type section = Some "document") then
    sections ← comprehension
      (fun section0 => _create_structured_metadata section0 section_summaries)
      (subsections section);
    Ok (PDict [ ("document",
                 PDict [ ("title", optional_str (title section));
                         ("sections", PList sections) ]) ])
  else
    (* find section from section summaries *)
    summary_response ← getitem section_summaries (id section);
    t ← title_clean section;
    s ← attr_summary summary_response;
    let result0 :=
      [ ("title", PStr t);
        ("id", PStr (id section));
        ("pages", PList (PInt <$> sorted_ints (elements (pages section))));
        ("summary", optional_str s) ] in
    subsections0 ← comprehension
      (fun subsection => _create_structured_metadata subsection section_summaries)
      (subsections section);
    match subsections0 with
    | [] => Ok (PDict result0)
    | _ => Ok (PDict (result0 ++ [ ("sections", PList subsections0) ])%list)
    end.

End DocumentStructuredMetadata.

(** ** llm.py: the language model and its callers *)

(** The arguments of a function call, once decoded by [json.loads]. *)
Record FetchSectionsSchema : Type := {
  arg_reasoning : string;
  arg_section_ids : list string
}.

Record FunctionCall : Type := {
  fn_name : string;
  fn_arguments : FetchSectionsSchema
}.

(** The response of the selection call: [content] and
    [additional_kwargs.get("function_call")]. *)
Record AIMessage : Type := {
  content : string;
  function_call : option FunctionCall
}.

(** What the refine loop iterates over: the records of the tool, or the
    characters of a [str] (iterating a string yields its characters). *)
Inductive loop_item : Type :=
  | ItemRecord (r : SectionRecord)
  | ItemChar (c : ascii).

(** The model behind [self.llm]: the selection call with the declared
    functions, the summary runnable and the refine runnable. *)
Record ChatOpenAI : Type := {
  invoke_functions : gmap string pyobj → string → result AIMessage;
  summary_runnable : string → string → result SectionSummaryOutput;
  refine_answer_runnable : RefineIO → loop_item → string → result RefineIO
}.

Inductive request : Type :=
  | ReqSelect (question : string)
  | ReqSummary (section_title section_text : string)
  | ReqRefine (refine_io : RefineIO) (section : loop_item) (question : string).

(** A computation that calls the model: it reads and extends the log of
    answered requests, or raises. *)
Definition exec (A : Type) : Type := list request → result (A * list request).

#[global] Instance exec_ret : MRet exec := fun A a log => Ok (a, log).
#[global] Instance exec_bind : MBind exec := fun A B f m log =>
  match m log with
  | Ok (a, log') => f a log'
  | Err e => Err e
  end.

Definition lift {A} (r : result A) : exec A := fun log =>
  match r with
  | Ok a => Ok (a, log)
  | Err e => Err e
  end.

Definition invoke {A} (req : request) (response : result A) : exec A := fun log =>
  match response with
  | Ok a => Ok (a, (log ++ [req])%list)
  | Err e => Err e
  end.

Record OpenAIPromptExecutor : Type := {
  llm : ChatOpenAI;
  n_successful_requests : nat
}.

(** The [track_costs] decorator: the wrapped method runs under a fresh
    callback, whose request count is added to the executor when the method
    returns. The token and cost figures of the callback are reported by
    the service and are left out. *)
Definition track_costs {A} (func : ChatOpenAI → exec A)
    (self : OpenAIPromptExecutor) : result (A * OpenAIPromptExecutor) :=
  match func (llm self) [] with
  | Ok (result0, cb) =>
      Ok (result0,
          {| llm := llm self;
             n_successful_requests := n_successful_requests self + length cb |})
  | Err e => Err e
  end.

(** One round of the loop of [create_summaries_chain]. *)
Definition summarize_section (model : ChatOpenAI)
    (summary_dict : gmap string (option string)) (section : Section)
    : exec (gmap string (option string)) :=
  section_text ← lift (Section_attr section "text");
  (* Check if we need to call the API (only if text exists) *)
  if 0 <? String.length section_text then
    t ← lift (title_clean section);
    x ← lift (Section_attr section "text");
    response ← invoke (ReqSummary t x) (summary_runnable model t x);
    mret (<[id section := summary response]> summary_dict)
  else
    mret (<[id section := None]> summary_dict).

(** The dict [summary_dict] as it stands when the loop ends. *)
Definition summary_dict_after_loop (model : ChatOpenAI) (sections : list Section)
    : exec (gmap string (option string)) :=
  for_in sections (summarize_section model) ∅.

(** [create_summaries_chain] before decoration. The function has no
    return statement: its value is None ([None] here), whatever
    [summary_dict] holds. *)
Definition create_summaries_chain_body (sections : list Section)
    (model : ChatOpenAI) : exec (option (gmap string (option string))) :=
  _ ← summary_dict_after_loop model sections;
  mret None.

Definition create_summaries_chain (self : OpenAIPromptExecutor)
    (sections : list Section)
    : result (option (gmap string (option string)) * OpenAIPromptExecutor) :=
  track_costs (create_summaries_chain_body sections) self.

(** The value of [parse_function_output]: the list returned by the tool,
    or the content of the response. *)
Inductive fetched : Type :=
  | FetchedRecords (l : list SectionRecord)
  | FetchedContent (s : string).

Definition items (f : fetched) : list loop_item :=
  match f with
  | FetchedRecords l => ItemRecord <$> l
  | FetchedContent s => ItemChar <$> list_ascii_of_string s
  end.

(** [parse_function_output]. The only tool of [tools] is the fetch tool,
    given here by the mapping it holds; [next(filter(..))] raises
    StopIteration on any other name. *)
Definition parse_function_output (section_summaries : gmap string pyobj)
    (response : AIMessage) : result fetched :=
  match function_call response with
  | Some fn_call =>
      (* Check if the response content is empty and that there is a function call *)
      if bool_decide (content response = "") then
        if bool_decide (FetchSectionsTool.name = fn_name fn_call) then
          fn_output ← FetchSectionsTool._run section_summaries
                        (arg_reasoning (fn_arguments fn_call))
                        (arg_section_ids (fn_arguments fn_call));
          Ok (FetchedRecords fn_output)
        else Err StopIteration
      else Ok (FetchedContent (content response))
  | None =>
      (* Otherwise return the content *)
      Ok (FetchedContent (content response))
  end.

Definition initial_refine_io : RefineIO :=
  {| intermediate_answer := ""; section_ids := [] |}.

(** One round of the refine loop. *)
Definition refine_step (model : ChatOpenAI) (question : string)
    (refine_io : RefineIO) (section : loop_item) : exec RefineIO :=
  invoke (ReqRefine refine_io section question)
         (refine_answer_runnable model refine_io section question).

(** [generic_question_chain] before decoration. *)
Definition generic_question_chain_body (section_summaries : gmap string pyobj)
    (question : string) (model : ChatOpenAI) : exec RefineIO :=
  (* Create langchain tools *)
  tool ← lift (FetchSectionsTool.init section_summaries);
  fetch_sections_response ←
    invoke (ReqSelect question) (invoke_functions model section_summaries question);
  fetched_sections ←
    lift (parse_function_output (FetchSectionsTool.section_summaries tool)
            fetch_sections_response);
  for_in (items fetched_sections) (refine_step model question) initial_refine_io.

Definition generic_question_chain (self : OpenAIPromptExecutor)
    (section_summaries : gmap string pyobj) (question : string)
    : result (RefineIO * OpenAIPromptExecutor) :=
  track_costs (generic_question_chain_body section_summaries question) self.

(** Pre-order list of the nodes of a tree. *)
Fixpoint nodes (s : Section) : list Section :=
  s :: flat_map nodes (subsections s).

(** What the tool resolves an id to: the stored value, turned into a
    record. An id is known when it resolves to the record of the section
    that carries it. *)
Definition resolve (m : gmap string pyobj) (k : string) : result SectionRecord :=
  o ← getitem m k; FetchSectionsTool.section_record o.

Definition known (m : gmap string pyobj) (k : string) : bool :=
  match resolve m k with
  | Ok r => bool_decide (rec_id r = k)
  | Err _ => false
  end.

Abbreviation project := DocumentStructuredMetadata._create_structured_metadata.

(** Induction on a tree of sections: the property holds of a section as
    soon as it holds of all its subsections. *)
Definition Section_tree_ind (P : Section → Prop)
    (step : ∀ s, Forall P (subsections s) → P s) : ∀ s, P s :=
  fix go (s : Section) : P s :=
    step s
      (match s as s0 return Forall P (subsections s0) with
       | Build_Section _ _ _ _ _ _ subs _ =>
           (fix all (l : list Section) : Forall P l :=
              match l with
              | [] => @List.Forall_nil _ P
              | x :: r => @List.Forall_cons _ P x r (go x) (all r)
              end) subs
       end).

(** ** A sample document

    Two sections as the tree builder hands them over (ids assigned, text
    attached), their document, and the two mappings the code is used
    with: ids to sections and ids to summary outputs. *)
Definition section_1_1 : Section :=
  {| id := "1.1"; title := Some "1.1 Revenue"; pages := {[ 2%Z; 1%Z ]};
     section_type := Some "section"; paragraphs := []; parent := None;
     subsections := []; extra := {[ "text" := "Revenue grew 42%" ]} |}.

Definition section_2_2 : Section :=
  {| id := "2.2"; title := Some "2.2 Outlook"; pages := {[ 3%Z ]};
     section_type := Some "section"; paragraphs := []; parent := None;
     subsections := []; extra := {[ "text" := "Growth is expected" ]} |}.

Definition sample_document : Section :=
  Document_init (Some "Annual report") None None
    (Some [section_1_1; section_2_2]) None.

Definition sample_sections : gmap string pyobj :=
  {[ "1.1" := ObjSection section_1_1; "2.2" := ObjSection section_2_2 ]}.

Definition sample_outputs : gmap string pyobj :=
  {[ "1.1" := ObjSummaryOutput {| summary := Some "Revenue is up" |};
     "2.2" := ObjSummaryOutput {| summary := None |} ]}.

(** A mapping of the declared shape, ids to optional strings. *)
Definition sample_summaries : gmap string pyobj :=
  {[ "1.1" := ObjStr "Revenue is up"; "2.2" := ObjNone ]}.

(** A section the mappings do not know, and a document that holds it
    after a known one. *)
Definition section_9_9 : Section :=
  {| id := "9.9"; title := Some "9.9 Annex"; pages := ∅;
     section_type := Some "section"; paragraphs := []; parent := None;
     subsections := []; extra := {[ "text" := "Tables" ]} |}.

Definition annex_document : Section :=
  Document_init None None None (Some [section_1_1; section_9_9]) None.

(** A model for the examples: it answers the selection call with the given
    message and, at each refine step, cites what it was shown (the id of a
    record, or the character). *)
Definition item_label (section : loop_item) : string :=
  match section with
  | ItemRecord r => rec_id r
  | ItemChar c => String c EmptyString
  end.

Definition citing_model (selection : AIMessage) : ChatOpenAI :=
  {| invoke_functions := λ _ _, Ok selection;
     summary_runnable := λ _ _, Ok {| summary := None |};
     refine_answer_runnable := λ refine_io section _,
       Ok {| intermediate_answer := "seen " +:+ item_label section;
             section_ids := (section_ids refine_io ++ [item_label section])%list |} |}.

Definition new_executor (model : ChatOpenAI) : OpenAIPromptExecutor :=
  {| llm := model; n_successful_requests := 0 |}.

(** The two selection responses of the examples: a call of the fetch tool
    and a direct answer. *)
Definition fetch_call : AIMessage :=
  {| content := "";
     function_call :=
       Some {| fn_name := "fetch_sections";
               fn_arguments := {| arg_reasoning := "revenue figures";
                                  arg_section_ids := ["2.2"; "1.1"] |} |} |}.

Definition direct_answer : AIMessage :=
  {| content := "I don't know"; function_call := None |}.

(** ** Predicates of the statements *)

(** Three consecutive characters among [_] and [.] somewhere in [s]. *)
Fixpoint leader_run3 (s : string) : bool :=
  match s with
  | EmptyString => false
  | String a r =>
      (is_leader a
       && match r with
          | String b (String c _) => is_leader b && is_leader c
          | _ => false
          end)
      || leader_run3 r
  end.

(** The last character of [s] is whitespace. *)
Fixpoint trailing_space (s : string) : bool :=
  match s with
  | EmptyString => false
  | String c EmptyString => isspace c
  | String _ r => trailing_space r
  end.

(** The first character of [s] satisfies [p]. *)
Definition starts_with (p : ascii → bool) (s : string) : bool :=
  match s with
  | EmptyString => false
  | String c _ => p c
  end.

(** A character of a section number, or a blank after it. *)
Definition is_numbering_char (c : ascii) : bool :=
  is_decimal c || (code c =? 46) || isspace c.

(** An id the fetch tool can turn into a record: it is stored with a
    section that has a title and an attached text. *)
Definition fetchable (m : gmap string pyobj) (k : string) : Prop :=
  ∃ s, m !! k = Some (ObjSection s) ∧ is_Some (title s)
       ∧ is_Some (extra s !! "text").

(** [d.get(k)] on the entries of a dict. *)
Fixpoint assoc (k : string) (d : list (string * pyval)) : option pyval :=
  match d with
  | [] => None
  | (k', v) :: r => if bool_decide (k' = k) then Some v else assoc k r
  end.

(** The strings stored under the key ["id"] anywhere in a value, in the
    order in which they are met. *)
Fixpoint ids_in (v : pyval) : list string :=
  match v with
  | PList l => flat_map ids_in l
  | PDict d =>
      flat_map
        (λ e, match e with
              | (k, v') =>
                  ((if bool_decide (k = "id")
                    then match v' with PStr i => [i] | _ => [] end
                    else [])
                   ++ ids_in v')%list
              end) d
  | _ => []
  end.

(** The ids of the nodes of a tree that are not documents, in pre-order. *)
Fixpoint section_ids_of (t : Section) : list string :=
  ((if bool_decide (section_type t = Some "document") then [] else [id t])
   ++ flat_map section_ids_of (subsections t))%list.

(** A node the projector can emit: a document, or a titled section whose
    id is stored with a value that has a [summary]. *)
Definition projectable (m : gmap string pyobj) (n : Section) : Prop :=
  section_type n = Some "document"
  ∨ (is_Some (title n)
     ∧ ∃ o, m !! id n = Some o ∧ is_ok (attr_summary o) = true).

(** [v.get(k)] on a value that is a dict. *)
Definition dict_get (v : pyval) (k : string) : option pyval :=
  match v with
  | PDict d => assoc k d
  | _ => None
  end.

(** A section whose summary costs a model request: it has an attached
    text that is not empty. *)
Definition needs_request (s : Section) : bool :=
  match extra s !! "text" with
  | Some x => 0 <? String.length x
  | None => false
  end.

(** What [summary_dict] holds for a section once its round has run. *)
Definition summary_entry (model : ChatOpenAI) (s : Section)
    (v : option string) : Prop :=
  ∃ x, extra s !! "text" = Some x
       ∧ if 0 <? String.length x
         then ∃ t r, title_clean s = Ok t
                     ∧ summary_runnable model t x = Ok r ∧ v = summary r
         else v = None.

(** * Properties *)

(** ** Sanity checks on the builtins *)

Example sub_leaders_toc : sub_leaders "Intro.....7 a..b ___" = "Intro7 a..b ".
Proof. reflexivity. Qed.

Example sub_numbering_dots : sub_numbering "1..2" = ".2".
Proof. reflexivity. Qed.

Example rstrip_blanks : rstrip "a b  " = "a b".
Proof. reflexivity. Qed.

Example title_clean_numbered :
  title_clean (Section_init "" (Some "3.2.1 Introduction") None None None None None)
  = Ok "Introduction".
Proof. reflexivity. Qed.

Example title_clean_plain :
  title_clean (Section_init "" (Some "Introduction") None None None None None)
  = Ok "Introduction".
Proof. reflexivity. Qed.

Example cleanup_number : InterimElement.text (InterimElement.of_text "42") = Ok None.
Proof. reflexivity. Qed.

Example cleanup_empty : InterimElement.text (InterimElement.of_text "") = Ok None.
Proof. reflexivity. Qed.

Example cleanup_sentence :
  InterimElement.text (InterimElement.of_text "Revenue grew 42%")
  = Ok (Some "Revenue grew 42%").
Proof. reflexivity. Qed.

Example sorted_ids : sorted ["2.2"; "1.1"; "10.1"] = ["1.1"; "10.1"; "2.2"].
Proof. reflexivity. Qed.

(** ** The order on strings *)

Lemma ascii_compare_N (x y : ascii) :
  Ascii.compare x y = N.compare (N_of_ascii x) (N_of_ascii y).
Proof. reflexivity. Qed.

Lemma string_compare_trans (a b c : string) :
  (a ?= b)%string ≠ Gt → (b ?= c)%string ≠ Gt → (a ?= c)%string ≠ Gt.
Proof.
  revert b c. induction a as [|x a IH]; intros [|y b] [|z c]; simpl; try done.
  rewrite !ascii_compare_N.
  destruct (N.compare_spec (N_of_ascii x) (N_of_ascii y)) as [Exy|Lxy|Gxy];
    [|clear IH|done];
    (destruct (N.compare_spec (N_of_ascii y) (N_of_ascii z)) as [Eyz|Lyz|Gyz];
     [| |done]);
    destruct (N.compare_spec (N_of_ascii x) (N_of_ascii z)) as [Exz|Lxz|Gxz];
    try done; try lia.
  apply IH.
Qed.

#[global] Instance str_le_trans : Transitive str_le.
Proof.
  intros a b c. unfold str_le, String.leb. intros Hab Hbc.
  pose proof (string_compare_trans a b c) as H.
  destruct (a ?= b)%string, (b ?= c)%string, (a ?= c)%string;
    try done; exfalso; by apply H.
Qed.

#[global] Instance str_le_total : Total str_le.
Proof. intros a b. apply String.leb_total. Qed.

#[global] Instance str_le_antisym : AntiSymm (=) str_le.
Proof. intros a b. apply String.leb_antisym. Qed.

Lemma Sorted_sorted (l : list string) : Sorted str_le (sorted l).
Proof. apply Sorted_merge_sort, _. Qed.

Lemma sorted_Permutation (l : list string) : sorted l ≡ₚ l.
Proof. apply merge_sort_Permutation. Qed.

(** Sorting forgets the order in which the ids were given. *)
Lemma sorted_perm (l l' : list string) : l ≡ₚ l' → sorted l = sorted l'.
Proof.
  intros Hp. apply (Sorted_unique str_le); try apply Sorted_sorted.
  by rewrite !sorted_Permutation.
Qed.

(** ** model.py *)

Lemma append_cons (c : ascii) (s1 s2 : string) :
  String c s1 +:+ s2 = String c (s1 +:+ s2).
Proof. reflexivity. Qed.

Lemma append_empty_r (s : string) : s +:+ "" = s.
Proof. induction s as [|c s IH]; [done|]. by rewrite append_cons, IH. Qed.

Lemma append_assoc (s1 s2 s3 : string) : (s1 +:+ s2) +:+ s3 = s1 +:+ (s2 +:+ s3).
Proof. induction s1 as [|c s1 IH]; [done|]. by rewrite !append_cons, IH. Qed.

Lemma sub_leaders_from_all (run s : string) :
  all_chars is_leader s = true →
  sub_leaders_from run s = flush_run (run +:+ s).
Proof.
  revert run. induction s as [|c s IH]; intros run Hs; simpl in *.
  - by rewrite append_empty_r.
  - apply andb_prop in Hs as [Hc Hs]. rewrite Hc, IH by done.
    by rewrite append_assoc.
Qed.

(** C8 as stated does not hold: the line is not discarded. *)
Lemma chapter_line_not_discarded :
  InterimElement.text (InterimElement.of_text "Chapter 1..........") ≠ Ok None.
Proof. discriminate. Qed.

(** C8 (amended): the cleanup of ["Chapter 1.........."] deletes the run of
    dots and keeps the rest, ["Chapter 1"], which is neither numeric nor
    empty; a line made only of three or more dots and underscores is
    discarded. *)
Theorem cleanup_chapter_line :
  InterimElement.text (InterimElement.of_text "Chapter 1..........")
  = Ok (Some "Chapter 1")
  ∧ ∀ s : string,
      all_chars is_leader s = true → 3 ≤ String.length s →
      InterimElement.text (InterimElement.of_text s) = Ok None.
Proof.
  split; [reflexivity|].
  intros s Hs Hlen. unfold InterimElement.text, InterimElement.of_text. simpl.
  rewrite lookup_singleton_eq. simpl.
  destruct s as [|c s]; [simpl in Hlen; lia|]. simpl nonempty. cbv iota.
  unfold sub_leaders. rewrite sub_leaders_from_all by done.
  unfold flush_run. change ("" +:+ String c s) with (String c s).
  destruct (Nat.leb_spec 3 (String.length (String c s))); [reflexivity | lia].
Qed.

Lemma cleanup_chapter_line_witness :
  all_chars is_leader "..._.." = true ∧ 3 ≤ String.length "..._.."
  ∧ InterimElement.text (InterimElement.of_text "..._..") = Ok None.
Proof.
  split; [reflexivity|]. split; [simpl; lia|].
  apply (proj2 cleanup_chapter_line); [reflexivity | simpl; lia].
Defined.

(** C7: a newly constructed Document has section type ["document"], and
    its id is the empty string: [Section.__init__] does not store the
    ["root"] it is given. *)
Theorem Document_init_id title0 pages0 paragraphs0 subsections0 parent0 :
  let d := Document_init title0 pages0 paragraphs0 subsections0 parent0 in
  section_type d = Some "document" ∧ id d = "" ∧ id d ≠ "root".
Proof. simpl. repeat split. discriminate. Qed.

(** C10: the clean title of a section without a title is an error, the
    TypeError of [re.sub] on None, also through the stored-value
    attribute. *)
Theorem title_clean_needs_title (s : Section) :
  title s = None →
  title_clean s = Err (TypeError "expected string or bytes-like object")
  ∧ attr_title_clean (ObjSection s)
    = Err (TypeError "expected string or bytes-like object").
Proof. intros H. unfold attr_title_clean, title_clean. by rewrite H. Qed.

Lemma title_clean_needs_title_witness :
  let s := Section_init "1.1" None None None None None None in
  title s = None
  ∧ title_clean s = Err (TypeError "expected string or bytes-like object").
Proof.
  split; [reflexivity|].
  apply (title_clean_needs_title (Section_init "1.1" None None None None None None)).
  reflexivity.
Defined.

(** The clean title is defined exactly when the title is present. *)
Lemma title_clean_ok_iff (s : Section) :
  is_ok (title_clean s) = true ↔ is_Some (title s).
Proof.
  unfold title_clean. destruct (title s); simpl; split; eauto; done.
Qed.

(** ** Comprehensions and loops *)

Section comprehension_facts.
Context {A B : Type} (f : A → result B).

Lemma comprehension_cons (x : A) (l : list A) :
  comprehension f (x :: l) = (y ← f x; ys ← comprehension f l; Ok (y :: ys)).
Proof. reflexivity. Qed.

(** A comprehension succeeds exactly with one value per element, in the
    order of the elements. *)
Lemma comprehension_ok (l : list A) (ys : list B) :
  comprehension f l = Ok ys ↔ Forall2 (λ x y, f x = Ok y) l ys.
Proof.
  revert ys. induction l as [|x l IH]; intros ys.
  - split.
    + intros [= <-]. constructor.
    + by intros ->%Forall2_nil_inv_l.
  - rewrite comprehension_cons. split.
    + destruct (f x) as [y|] eqn:Hx; simpl; [|done].
      destruct (comprehension f l) as [zs|] eqn:Hl; simpl; [|done].
      intros [= <-]. constructor; [done|]. by apply IH.
    + intros (y & zs & Hy & Hzs & ->)%Forall2_cons_inv_l.
      rewrite Hy. simpl. apply IH in Hzs. by rewrite Hzs.
Qed.

(** The first element whose expression raises decides the exception. *)
Lemma comprehension_first_error (pre post : list A) (x : A) (e : exn) :
  Forall (λ z, is_ok (f z) = true) pre → f x = Err e →
  comprehension f (pre ++ x :: post) = Err e.
Proof.
  intros Hpre Hx. induction Hpre as [|z pre Hz _ IH]; simpl.
  - by rewrite Hx.
  - fold (comprehension f). destruct (f z); [simpl|done]. by rewrite IH.
Qed.

Lemma comprehension_error (l : list A) (x : A) (e : exn) :
  x ∈ l → f x = Err e → ∃ e', comprehension f l = Err e'.
Proof.
  intros Hin Hx. induction l as [|z l IH]; [by apply elem_of_nil in Hin|].
  rewrite comprehension_cons.
  apply elem_of_cons in Hin as [->|Hin].
  - rewrite Hx. by eexists.
  - destruct (f z); simpl; [|by eexists].
    destruct (IH Hin) as [e' ->]. by eexists.
Qed.
End comprehension_facts.

(** ** FetchSectionsTool *)

Lemma fetch_one_resolve (m : gmap string pyobj) (acc : list SectionRecord)
    (k : string) :
  FetchSectionsTool.fetch_one m acc k = (r ← resolve m k; Ok (acc ++ [r])%list).
Proof.
  unfold FetchSectionsTool.fetch_one, resolve. by destruct (getitem m k).
Qed.

Lemma fetch_loop_comprehension (m : gmap string pyobj) (ks : list string)
    (acc : list SectionRecord) :
  for_in ks (FetchSectionsTool.fetch_one m) acc
  = (rs ← comprehension (resolve m) ks; Ok (acc ++ rs)%list).
Proof.
  revert acc. induction ks as [|k ks IH]; intros acc.
  - simpl. by rewrite app_nil_r.
  - rewrite comprehension_cons. cbn [for_in]. rewrite fetch_one_resolve.
    destruct (resolve m k) as [r|]; simpl; [|done].
    rewrite IH. destruct (comprehension (resolve m) ks); simpl; [|done].
    by rewrite <- app_assoc.
Qed.

(** The tool returns the records of the ids taken in ascending order. *)
Lemma run_comprehension (m : gmap string pyobj) (reasoning : string)
    (ids : list string) :
  FetchSectionsTool._run m reasoning ids = comprehension (resolve m) (sorted ids).
Proof.
  unfold FetchSectionsTool._run. rewrite fetch_loop_comprehension.
  by destruct (comprehension (resolve m) (sorted ids)).
Qed.

(** Neither the order of the ids nor the reasoning changes the outcome,
    be it a list of records or an exception. *)
Lemma run_permutation (m : gmap string pyobj) (r1 r2 : string)
    (ids ids' : list string) :
  ids ≡ₚ ids' →
  FetchSectionsTool._run m r1 ids = FetchSectionsTool._run m r2 ids'.
Proof. intros Hp. rewrite !run_comprehension. by rewrite (sorted_perm _ _ Hp). Qed.

Lemma known_records (m : gmap string pyobj) (ks : list string) :
  Forall (known m) ks →
  ∃ recs, comprehension (resolve m) ks = Ok recs ∧ rec_id <$> recs = ks.
Proof.
  induction 1 as [|k ks Hk _ (recs & Hrecs & Hids)]; [by exists []|].
  unfold known in Hk. destruct (resolve m k) as [r|] eqn:Hr; [|done].
  apply bool_decide_unpack in Hk.
  exists (r :: recs). split.
  - by rewrite comprehension_cons, Hr, Hrecs.
  - by rewrite fmap_cons, Hk, Hids.
Qed.

(** C4: on known section ids the tool returns the records of these ids in
    ascending order of id, and any permutation of the ids gives the same
    sequence of records. *)
Theorem fetch_sections_sorted (m : gmap string pyobj) (r1 r2 : string)
    (ids ids' : list string) :
  ids ≡ₚ ids' →
  Forall (known m) ids →
  ∃ recs,
    FetchSectionsTool._run m r1 ids = Ok recs
    ∧ FetchSectionsTool._run m r2 ids' = Ok recs
    ∧ rec_id <$> recs = sorted ids
    ∧ Sorted str_le (rec_id <$> recs)
    ∧ rec_id <$> recs ≡ₚ ids.
Proof.
  intros Hp Hknown.
  assert (Forall (known m) (sorted ids)) as Hs.
  { by rewrite sorted_Permutation. }
  destruct (known_records m _ Hs) as (recs & Hrecs & Hids).
  exists recs. rewrite <- (run_permutation m r1 r2 ids ids' Hp).
  rewrite run_comprehension, Hids.
  auto using Sorted_sorted, sorted_Permutation.
Qed.

Lemma fetch_sections_sorted_witness :
  ["2.2"; "1.1"] ≡ₚ ["1.1"; "2.2"]
  ∧ Forall (known sample_sections) ["2.2"; "1.1"]
  ∧ ∃ recs,
      FetchSectionsTool._run sample_sections "a" ["2.2"; "1.1"] = Ok recs
      ∧ FetchSectionsTool._run sample_sections "b" ["1.1"; "2.2"] = Ok recs
      ∧ rec_id <$> recs = sorted ["2.2"; "1.1"]
      ∧ Sorted str_le (rec_id <$> recs)
      ∧ rec_id <$> recs ≡ₚ ["2.2"; "1.1"].
Proof.
  assert (["2.2"; "1.1"] ≡ₚ ["1.1"; "2.2"]) as Hp by apply Permutation_swap.
  assert (Forall (known sample_sections) ["2.2"; "1.1"]) as Hk
    by (repeat constructor).
  split; [exact Hp|]. split; [exact Hk|].
  exact (fetch_sections_sorted sample_sections "a" "b" _ _ Hp Hk).
Defined.

Example fetch_two_sections :
  FetchSectionsTool._run sample_sections "" ["2.2"; "1.1"]
  = Ok [ {| rec_title := "Revenue"; rec_id := "1.1"; rec_text := "Revenue grew 42%" |};
         {| rec_title := "Outlook"; rec_id := "2.2"; rec_text := "Growth is expected" |} ].
Proof. reflexivity. Qed.

(** C9: the tool returns records only for ids whose stored values are
    sections, and on a mapping whose values are optional strings every
    non-empty list of stored ids fails at the first id in ascending order,
    with the AttributeError of reading [title_clean] from its value. *)
Theorem fetch_sections_needs_sections (m : gmap string pyobj)
    (reasoning : string) (ids : list string) :
  (∀ recs, FetchSectionsTool._run m reasoning ids = Ok recs →
     ∀ k, k ∈ ids → ∃ s, m !! k = Some (ObjSection s))
  ∧ ((∀ k v, m !! k = Some v → v = ObjNone ∨ ∃ s, v = ObjStr s) →
     ids ≠ [] →
     (∀ k, k ∈ ids → is_Some (m !! k)) →
     ∃ k rest v,
       sorted ids = k :: rest ∧ m !! k = Some v
       ∧ FetchSectionsTool._run m reasoning ids
         = Err (AttributeError (type_name v) "title_clean")).
Proof.
  rewrite run_comprehension. split.
  - intros recs Hrecs k Hk.
    apply comprehension_ok in Hrecs.
    rewrite <- sorted_Permutation in Hk.
    apply list_elem_of_lookup in Hk as [i Hi].
    destruct (Forall2_lookup_l _ _ _ _ _ Hrecs Hi) as (r & _ & Hr).
    unfold resolve, getitem in Hr.
    destruct (m !! k) as [[| | |s]|]; try done. by exists s.
  - intros Hshape Hne Hin.
    destruct (sorted ids) as [|k rest] eqn:Hsorted.
    { destruct Hne. apply Permutation_nil.
      by rewrite <- (sorted_Permutation ids), Hsorted. }
    assert (k ∈ ids) as Hk.
    { rewrite <- sorted_Permutation, Hsorted. left. }
    destruct (Hin k Hk) as [v Hv].
    exists k, rest, v. repeat split; [done|].
    assert (resolve m k = Err (AttributeError (type_name v) "title_clean")) as Hr.
    { unfold resolve, getitem. rewrite Hv.
      by destruct (Hshape k v Hv) as [->|[s ->]]. }
    by rewrite comprehension_cons, Hr.
Qed.

Lemma fetch_sections_needs_sections_witness :
  (∀ k v, sample_summaries !! k = Some v → v = ObjNone ∨ ∃ s, v = ObjStr s)
  ∧ ["2.2"; "1.1"] ≠ []
  ∧ (∀ k, k ∈ ["2.2"; "1.1"] → is_Some (sample_summaries !! k))
  ∧ ∃ k rest v,
      sorted ["2.2"; "1.1"] = k :: rest ∧ sample_summaries !! k = Some v
      ∧ FetchSectionsTool._run sample_summaries "" ["2.2"; "1.1"]
        = Err (AttributeError (type_name v) "title_clean").
Proof.
  assert (∀ k v, sample_summaries !! k = Some v → v = ObjNone ∨ ∃ s, v = ObjStr s)
    as Hshape.
  { intros k v. unfold sample_summaries.
    rewrite lookup_insert. case_decide; [intros [= <-]; eauto|].
    rewrite lookup_singleton. case_decide; [intros [= <-]; eauto|done]. }
  assert (∀ k, k ∈ ["2.2"; "1.1"] → is_Some (sample_summaries !! k)) as Hin.
  { intros k Hk. repeat (apply elem_of_cons in Hk as [->|Hk]); try by eexists.
    by apply elem_of_nil in Hk. }
  split; [exact Hshape|]. split; [done|]. split; [exact Hin|].
  refine (proj2 (fetch_sections_needs_sections sample_summaries "" ["2.2"; "1.1"])
            Hshape _ Hin).
  done.
Defined.

Example fetch_from_summaries :
  FetchSectionsTool._run sample_summaries "" ["2.2"; "1.1"]
  = Err (AttributeError "str" "title_clean").
Proof. reflexivity. Qed.

(** ** DocumentStructuredMetadata *)

Lemma project_document (t : Section) (m : gmap string pyobj) :
  section_type t = Some "document" →
  project t m
  = (sections ← comprehension (λ c, project c m) (subsections t);
     Ok (PDict [ ("document",
                  PDict [ ("title", optional_str (title t));
                          ("sections", PList sections) ]) ])).
Proof.
  intros Ht. destruct t; simpl in *. by rewrite bool_decide_eq_true_2.
Qed.

Lemma project_section (t : Section) (m : gmap string pyobj) :
  section_type t ≠ Some "document" →
  project t m
  = (summary_response ← getitem m (id t);
     c ← title_clean t;
     s ← attr_summary summary_response;
     subsections0 ← comprehension (λ c, project c m) (subsections t);
     let result0 :=
       [ ("title", PStr c);
         ("id", PStr (id t));
         ("pages", PList (PInt <$> sorted_ints (elements (pages t))));
         ("summary", optional_str s) ] in
     match subsections0 with
     | [] => Ok (PDict result0)
     | _ => Ok (PDict (result0 ++ [ ("sections", PList subsections0) ])%list)
     end).
Proof.
  intros Ht. destruct t; simpl in *. by rewrite bool_decide_eq_false_2.
Qed.

(** A node whose id has no entry makes the projection of any tree that
    contains it fail. *)
Lemma project_missing (m : gmap string pyobj) (n : Section) :
  section_type n ≠ Some "document" → m !! id n = None →
  ∀ t, n ∈ nodes t → ∃ e, project t m = Err e.
Proof.
  intros Hn Hm t. induction t as [t IH] using Section_tree_ind. intros Hin.
  assert (n = t ∨ ∃ c, c ∈ subsections t ∧ n ∈ nodes c) as [->|(c & Hc & Hnc)].
  { destruct t; simpl in Hin. apply elem_of_cons in Hin as [->|Hin]; [by left|].
    right. apply list_elem_of_In, in_flat_map in Hin as (c & Hc & Hnc).
    exists c. by rewrite !list_elem_of_In. }
  - rewrite project_section by done. unfold getitem. rewrite Hm. by eexists.
  - rewrite Forall_forall in IH. destruct (IH c Hc Hnc) as [e He].
    destruct (comprehension_error (λ c, project c m) _ c e Hc He) as [e' He'].
    destruct (decide (section_type t = Some "document")) as [Ht|Ht].
    + rewrite project_document, He' by done. by eexists.
    + rewrite project_section, He' by done.
      destruct (getitem m (id t)); simpl; [|by eexists].
      destruct (title_clean t); simpl; [|by eexists].
      destruct (attr_summary _); simpl; by eexists.
Qed.

(** C5 as stated does not hold: with an absent id in the list, or an
    absent id in the tree, the exception can be another one than the
    KeyError, raised before the absent id is looked up. Here the mapping
    has the declared shape, ids to optional strings. *)
Lemma missing_id_other_exception :
  sample_summaries !! "9.9" = None
  ∧ FetchSectionsTool._run sample_summaries "" ["9.9"; "1.1"]
    = Err (AttributeError "str" "title_clean")
  ∧ section_9_9 ∈ nodes annex_document
  ∧ section_type section_9_9 ≠ Some "document"
  ∧ sample_summaries !! id section_9_9 = None
  ∧ project annex_document sample_summaries
    = Err (AttributeError "str" "summary").
Proof.
  repeat split; [|done].
  unfold annex_document, Document_init, Section_init. simpl.
  do 2 right. left.
Qed.

Example project_leaf :
  project section_1_1 sample_outputs
  = Ok (PDict [ ("title", PStr "Revenue"); ("id", PStr "1.1");
                ("pages", PList [PInt 1; PInt 2]);
                ("summary", PStr "Revenue is up") ]).
Proof. reflexivity. Qed.

(** C6 as stated does not hold: the record emitted for the root has the
    single field [document]; [title] and [sections] are fields of the
    record stored under it. *)
Lemma root_record_is_wrapped :
  section_type sample_document = Some "document"
  ∧ ∃ v, project sample_document sample_outputs = Ok v
         ∧ keys v = ["document"]
         ∧ keys v ≠ ["title"; "sections"].
Proof. split; [reflexivity|]. eexists. split; [reflexivity|]. by split. Qed.

(** C6 (amended): for a root node the projection is the record with the
    single field [document], whose value has exactly the fields [title]
    (the title of the root) and [sections] (the projections of the
    subsections, in stored order), and no id, pages or summary; it is
    returned exactly when every subsection has a projection. *)
Theorem project_document_record (t : Section) (m : gmap string pyobj) (v : pyval) :
  section_type t = Some "document" →
  project t m = Ok v
  ↔ ∃ sections,
      Forall2 (λ c j, project c m = Ok j) (subsections t) sections
      ∧ v = PDict [ ("document",
                     PDict [ ("title", optional_str (title t));
                             ("sections", PList sections) ]) ].
Proof.
  intros Ht. rewrite project_document by done. split.
  - destruct (comprehension _ _) as [sections|] eqn:Hs; simpl; [|done].
    intros [= <-]. exists sections. split; [|done]. by apply comprehension_ok.
  - intros (sections & Hs & ->). apply comprehension_ok in Hs. by rewrite Hs.
Qed.

Lemma project_document_record_witness :
  section_type sample_document = Some "document"
  ∧ project sample_document sample_outputs
    = Ok (PDict
            [ ("document",
               PDict
                 [ ("title", PStr "Annual report");
                   ("sections",
                    PList
                      [ PDict [ ("title", PStr "Revenue"); ("id", PStr "1.1");
                                ("pages", PList [PInt 1; PInt 2]);
                                ("summary", PStr "Revenue is up") ];
                        PDict [ ("title", PStr "Outlook"); ("id", PStr "2.2");
                                ("pages", PList [PInt 3]);
                                ("summary", PNone) ] ]) ]) ]).
Proof.
  split; [reflexivity|].
  apply (project_document_record sample_document sample_outputs _ eq_refl).
  eexists. split; [|reflexivity].
  repeat constructor.
Defined.

(** ** OpenAIPromptExecutor *)

(** C1: [create_summaries_chain] never returns a mapping: its value is
    None whenever it returns, and on the empty list it returns None and
    leaves the executor as it was. *)
Theorem create_summaries_chain_returns_None :
  (∀ self sections,
     match create_summaries_chain self sections with
     | Ok (r, _) => r = None
     | Err _ => True
     end)
  ∧ (∀ self, create_summaries_chain self [] = Ok (None, self)).
Proof.
  split.
  - intros self sections.
    unfold create_summaries_chain, track_costs, create_summaries_chain_body.
    unfold mbind, exec_bind.
    by destruct (summary_dict_after_loop (llm self) sections []) as [[d cb]|].
  - intros [model n]. unfold create_summaries_chain, track_costs. simpl.
    by rewrite Nat.add_0_r.
Qed.

(** The loop itself is complete: when it ends, every section of the input
    is a key of [summary_dict]. *)
Lemma summary_dict_covers (model : ChatOpenAI) (sections : list Section)
    (d0 d : gmap string (option string)) (log log' : list request) :
  for_in sections (summarize_section model) d0 log = Ok (d, log') →
  (∀ k, is_Some (d0 !! k) → is_Some (d !! k))
  ∧ (∀ s, s ∈ sections → is_Some (d !! id s)).
Proof.
  revert d0 log. induction sections as [|s sections IH]; intros d0 log.
  - intros [= <- <-]. split; [done|]. by intros s ?%elem_of_nil.
  - cbn [for_in]. unfold mbind at 1, exec_bind.
    destruct (summarize_section model d0 s log) as [[d1 log1]|] eqn:Hs; [|done].
    intros Hrest. destruct (IH _ _ Hrest) as [Hkeep Hin].
    assert (∀ k, is_Some (d0 !! k) ∨ k = id s → is_Some (d1 !! k)) as Hd1.
    { unfold summarize_section, mbind, exec_bind, lift, invoke, mret, exec_ret in Hs.
      destruct (Section_attr s "text") as [x|]; [|done].
      destruct (0 <? String.length x).
      - destruct (title_clean s) as [t|]; [|done].
        destruct (summary_runnable model t x) as [r|]; [|done].
        injection Hs as <- _. intros k [Hk| ->].
        + rewrite lookup_insert. by case_decide.
        + by rewrite lookup_insert_eq.
      - injection Hs as <- _. intros k [Hk| ->].
        + rewrite lookup_insert. by case_decide.
        + by rewrite lookup_insert_eq. }
    split.
    + intros k Hk. apply Hkeep, Hd1. by left.
    + intros s' [->|Hs']%elem_of_cons; [|by apply Hin].
      apply Hkeep, Hd1. by right.
Qed.

(** The first statement of [generic_question_chain] builds the tool, and
    the constructor assigns [section_summaries], which is no field of the
    tool: the function raises there, whatever the model, the mapping and
    the question are. *)
Lemma tool_cannot_be_built (m : gmap string pyobj) :
  FetchSectionsTool.init m
  = Err (ValueError "FetchSectionsTool object has no field section_summaries").
Proof. reflexivity. Qed.

Lemma chain_body_raises (m : gmap string pyobj) (q : string)
    (model : ChatOpenAI) (log : list request) :
  generic_question_chain_body m q model log
  = Err (ValueError "FetchSectionsTool object has no field section_summaries").
Proof.
  unfold generic_question_chain_body, mbind, exec_bind, lift.
  by rewrite tool_cannot_be_built.
Qed.

(** C3: with a model that dispatches [fetch_sections] and a tool that
    would return its records, [generic_question_chain] raises the
    ValueError of the tool constructor: no state is returned, so the fold
    of the refine step over the records is not. *)
Theorem fetch_fold_not_returned (self : OpenAIPromptExecutor)
    (m : gmap string pyobj) (q : string) (resp : AIMessage)
    (fc : FunctionCall) (secs : list SectionRecord) :
  invoke_functions (llm self) m q = Ok resp →
  content resp = "" →
  function_call resp = Some fc →
  fn_name fc = "fetch_sections" →
  FetchSectionsTool._run m (arg_reasoning (fn_arguments fc))
    (arg_section_ids (fn_arguments fc)) = Ok secs →
  generic_question_chain self m q
  = Err (ValueError "FetchSectionsTool object has no field section_summaries")
  ∧ ∀ (step : RefineIO → SectionRecord → RefineIO) self',
      generic_question_chain self m q
      ≠ Ok (fold_left step secs initial_refine_io, self').
Proof.
  intros _ _ _ _ _.
  assert (generic_question_chain self m q
          = Err (ValueError "FetchSectionsTool object has no field section_summaries"))
    as Hraise.
  { unfold generic_question_chain, track_costs. by rewrite chain_body_raises. }
  split; [exact Hraise|]. intros step self'. by rewrite Hraise.
Qed.

Lemma fetch_fold_not_returned_witness :
  let self := new_executor (citing_model fetch_call) in
  let q := "What was total revenue?" in
  let secs :=
    [ {| rec_title := "Revenue"; rec_id := "1.1"; rec_text := "Revenue grew 42%" |};
      {| rec_title := "Outlook"; rec_id := "2.2"; rec_text := "Growth is expected" |} ] in
  invoke_functions (llm self) sample_sections q = Ok fetch_call
  ∧ content fetch_call = ""
  ∧ function_call fetch_call
    = Some {| fn_name := "fetch_sections";
              fn_arguments := {| arg_reasoning := "revenue figures";
                                 arg_section_ids := ["2.2"; "1.1"] |} |}
  ∧ FetchSectionsTool._run sample_sections "revenue figures" ["2.2"; "1.1"] = Ok secs
  ∧ generic_question_chain self sample_sections q
    = Err (ValueError "FetchSectionsTool object has no field section_summaries").
Proof.
  intros self q secs. do 4 (split; [reflexivity|]).
  exact (proj1 (fetch_fold_not_returned self sample_sections q fetch_call _ secs
                  eq_refl eq_refl eq_refl eq_refl eq_refl)).
Defined.

(** C2: with a model that answers the selection call with direct content,
    [generic_question_chain] raises the ValueError of the tool
    constructor: the content is not returned as the answer. *)
Theorem direct_content_not_returned (self : OpenAIPromptExecutor)
    (m : gmap string pyobj) (q : string) (resp : AIMessage) :
  invoke_functions (llm self) m q = Ok resp →
  function_call resp = None ∨ content resp ≠ "" →
  generic_question_chain self m q
  = Err (ValueError "FetchSectionsTool object has no field section_summaries")
  ∧ ∀ self',
      generic_question_chain self m q
      ≠ Ok ({| intermediate_answer := content resp; section_ids := [] |}, self').
Proof.
  intros _ _.
  assert (generic_question_chain self m q
          = Err (ValueError "FetchSectionsTool object has no field section_summaries"))
    as Hraise.
  { unfold generic_question_chain, track_costs. by rewrite chain_body_raises. }
  split; [exact Hraise|]. intros self'. by rewrite Hraise.
Qed.

Lemma direct_content_not_returned_witness :
  let self := new_executor (citing_model direct_answer) in
  let q := "What was total revenue?" in
  invoke_functions (llm self) ∅ q = Ok direct_answer
  ∧ (function_call direct_answer = None ∨ content direct_answer ≠ "")
  ∧ generic_question_chain self ∅ q
    = Err (ValueError "FetchSectionsTool object has no field section_summaries").
Proof.
  intros self q. split; [reflexivity|]. split; [by left|].
  exact (proj1 (direct_content_not_returned self ∅ q direct_answer eq_refl
                  (or_introl eq_refl))).
Defined.

(** * Further properties of the code *)

(** ** model.py: Section.starting_page *)

(** X1: the starting page of a section is the least of its pages, and is
    absent exactly when the section has no page. *)
Theorem starting_page_least (s : Section) :
  match starting_page s with
  | None => pages s = ∅
  | Some p => p ∈ pages s ∧ ∀ q, q ∈ pages s → (p ≤ q)%Z
  end.
Proof.
  unfold starting_page, sorted_ints.
  pose proof (merge_sort_Permutation Z.le (elements (pages s))) as Hp.
  pose proof (StronglySorted_merge_sort Z.le (elements (pages s))) as Hs.
  destruct (merge_sort Z.le (elements (pages s))) as [|p l].
  - apply Permutation_nil in Hp.
    by apply elements_empty_iff, leibniz_equiv in Hp.
  - split.
    + apply elem_of_elements. rewrite <- Hp. left.
    + intros q Hq. apply elem_of_elements in Hq. rewrite <- Hp in Hq.
      apply StronglySorted_inv in Hs as [_ Hall].
      apply elem_of_cons in Hq as [->|Hq]; [lia|].
      by apply (proj1 (Forall_forall _ _) Hall).
Qed.

(** ** model.py: Section.title_clean *)

Lemma numbering_rest_suffix (st : numbering_state) (s : string) :
  ∃ pre, s = pre +:+ numbering_rest st s
         ∧ all_chars is_numbering_char pre = true.
Proof.
  revert st. induction s as [|c s IH]; intros st; [by exists ""|].
  assert (∀ st', is_decimal c || (code c =? 46) = true →
            ∃ pre, String c s = pre +:+ numbering_rest st' s
                   ∧ all_chars is_numbering_char pre = true) as Hstep.
  { intros st' Hc. destruct (IH st') as (pre & Hpre & Hall).
    exists (String c pre). rewrite append_cons, <- Hpre. split; [done|].
    cbn [all_chars]. unfold is_numbering_char at 1. by rewrite Hc, Hall. }
  assert (∃ pre, String c s = pre +:+ String c s
                 ∧ all_chars is_numbering_char pre = true) as Hstop
    by (by exists "").
  destruct st; cbn [numbering_rest].
  - destruct (is_decimal c) eqn:Hd; [by apply Hstep; rewrite ?Hd | done].
  - destruct (is_decimal c) eqn:Hd; [by apply Hstep; rewrite ?Hd |].
    destruct (code c =? 46) eqn:Hdot; [by apply Hstep; rewrite ?Hd, ?Hdot | done].
  - destruct (is_decimal c) eqn:Hd; [by apply Hstep; rewrite ?Hd | done].
Qed.

Lemma lstrip_suffix (s : string) :
  ∃ pre, s = pre +:+ lstrip s ∧ all_chars is_numbering_char pre = true.
Proof.
  induction s as [|c s (pre & Hpre & Hall)]; [by exists ""|]. simpl.
  destruct (isspace c) eqn:Hc; [|by exists ""].
  exists (String c pre). rewrite append_cons, <- Hpre. split; [done|].
  cbn [all_chars]. unfold is_numbering_char at 1. rewrite Hc, Hall.
  by rewrite orb_true_r.
Qed.

Lemma lstrip_starts (s : string) : starts_with isspace (lstrip s) = false.
Proof.
  induction s as [|c s IH]; [done|]. simpl.
  destruct (isspace c) eqn:Hc; [done|]. simpl. done.
Qed.

Lemma all_chars_app (p : ascii → bool) (s1 s2 : string) :
  all_chars p (s1 +:+ s2) = all_chars p s1 && all_chars p s2.
Proof.
  induction s1 as [|c s1 IH]; [done|].
  rewrite append_cons. simpl. by rewrite IH, andb_assoc.
Qed.

(** X2: the clean title of a titled section is a suffix of the title that
    does not start with whitespace, and what is cut off in front of it is
    made of digits, dots and whitespace only. *)
Theorem title_clean_suffix (s : Section) (t : string) :
  title s = Some t →
  ∃ pre r,
    title_clean s = Ok r
    ∧ t = pre +:+ r
    ∧ all_chars is_numbering_char pre = true
    ∧ starts_with isspace r = false.
Proof.
  intros Ht. unfold title_clean. rewrite Ht.
  destruct (numbering_rest_suffix AtStart t) as (pre1 & H1 & Hall1).
  destruct (lstrip_suffix (sub_numbering t)) as (pre2 & H2 & Hall2).
  exists (pre1 +:+ pre2), (lstrip (sub_numbering t)).
  split; [done|]. split; [|split].
  - rewrite append_assoc, <- H2. exact H1.
  - by rewrite all_chars_app, Hall1, Hall2.
  - apply lstrip_starts.
Qed.

Lemma title_clean_suffix_witness :
  title section_1_1 = Some "1.1 Revenue"
  ∧ ∃ pre r,
      title_clean section_1_1 = Ok r
      ∧ "1.1 Revenue" = pre +:+ r
      ∧ all_chars is_numbering_char pre = true
      ∧ starts_with isspace r = false.
Proof.
  split; [reflexivity|].
  exact (title_clean_suffix section_1_1 "1.1 Revenue" eq_refl).
Defined.

Lemma numbering_rest_length (st : numbering_state) (s : string) :
  String.length (numbering_rest st s) ≤ String.length s.
Proof.
  revert st. induction s as [|c s IH]; intros st; [done|].
  pose proof (IH InDigits). pose proof (IH AfterDot).
  destruct st; cbn [numbering_rest];
    repeat (match goal with |- context [if ?b then _ else _] => destruct b end);
    simpl; lia.
Qed.

Lemma lstrip_length (s : string) : String.length (lstrip s) ≤ String.length s.
Proof.
  induction s as [|c s IH]; [done|]. simpl.
  destruct (isspace c); simpl; lia.
Qed.

(** X3: the clean title is the title itself exactly when the title starts
    with neither a decimal digit nor whitespace. *)
Theorem title_clean_unchanged_iff (s : Section) (t : string) :
  title s = Some t →
  title_clean s = Ok t
  ↔ starts_with is_decimal t = false ∧ starts_with isspace t = false.
Proof.
  intros Ht. unfold title_clean. rewrite Ht.
  destruct t as [|c t]; [done|].
  unfold sub_numbering. cbn [numbering_rest starts_with].
  destruct (is_decimal c) eqn:Hd.
  - split; [|by intros [? _]]. intros [= Heq].
    pose proof (lstrip_length (numbering_rest InDigits t)) as H1.
    pose proof (numbering_rest_length InDigits t) as H2.
    rewrite Heq in H1. simpl in H1. lia.
  - cbn [lstrip]. destruct (isspace c) eqn:Hc; [|done].
    split; [|by intros [_ ?]]. intros [= Heq].
    pose proof (lstrip_length t) as H1. rewrite Heq in H1. simpl in H1. lia.
Qed.

Lemma title_clean_unchanged_iff_witness :
  title section_1_1 = Some "1.1 Revenue"
  ∧ (title_clean section_1_1 = Ok "1.1 Revenue"
     ↔ starts_with is_decimal "1.1 Revenue" = false
       ∧ starts_with isspace "1.1 Revenue" = false).
Proof.
  split; [reflexivity|].
  exact (title_clean_unchanged_iff section_1_1 "1.1 Revenue" eq_refl).
Defined.

(** ** model.py: InterimElement.text *)

Lemma leader_run3_short (run : string) (c : ascii) (rest : string) :
  String.length run ≤ 2 → is_leader c = false →
  leader_run3 (run +:+ String c rest) = leader_run3 rest.
Proof.
  intros Hlen Hc.
  destruct run as [|a [|b [|d run]]]; [| | |simpl in Hlen; lia];
    rewrite ?append_cons; change ("" +:+ String c rest) with (String c rest);
    cbn [leader_run3]; rewrite Hc;
    destruct rest as [|x [|y rest]]; rewrite ?andb_false_r; done.
Qed.

Lemma leader_run3_flush (run : string) : leader_run3 (flush_run run) = false.
Proof.
  unfold flush_run. destruct (Nat.leb_spec 3 (String.length run)); [done|].
  destruct run as [|a [|b [|d run]]]; [| | |simpl in *; lia];
    cbn [leader_run3]; by rewrite ?andb_false_r.
Qed.

Lemma flush_run_length (run : string) : String.length (flush_run run) ≤ 2.
Proof.
  unfold flush_run. destruct (Nat.leb_spec 3 (String.length run)); simpl; lia.
Qed.

(** The substitution leaves no run of three leader characters. *)
Lemma sub_leaders_from_no_run (run s : string) :
  leader_run3 (sub_leaders_from run s) = false.
Proof.
  revert run. induction s as [|c s IH]; intros run; cbn [sub_leaders_from].
  - apply leader_run3_flush.
  - destruct (is_leader c) eqn:Hc; [apply IH|].
    rewrite leader_run3_short; [apply IH | apply flush_run_length | done].
Qed.

Lemma leader_run3_prefix (p suf : string) :
  leader_run3 (p +:+ suf) = false → leader_run3 p = false.
Proof.
  induction p as [|a p IH]; [done|].
  rewrite append_cons. cbn [leader_run3].
  intros [Hhead Htail]%orb_false_elim. rewrite (IH Htail), orb_false_r.
  destruct p as [|b [|c p]]; rewrite ?andb_false_r; done.
Qed.

Lemma leader_run3_suffix (p s : string) :
  leader_run3 (p +:+ s) = false → leader_run3 s = false.
Proof.
  induction p as [|a p IH]; [done|].
  rewrite append_cons. cbn [leader_run3]. intros [_ ?]%orb_false_elim. auto.
Qed.

Lemma rstrip_prefix (s : string) : ∃ suf, s = rstrip s +:+ suf.
Proof.
  induction s as [|c s [suf Hsuf]]; [by exists ""|]. cbn [rstrip].
  destruct (rstrip s) as [|d r] eqn:Hr.
  - destruct (isspace c).
    + by exists (String c s).
    + exists suf. rewrite append_cons. by rewrite <- Hsuf.
  - exists suf. rewrite append_cons. by rewrite <- Hsuf.
Qed.

Lemma rstrip_trailing (s : string) : trailing_space (rstrip s) = false.
Proof.
  induction s as [|c s IH]; [done|]. cbn [rstrip].
  destruct (rstrip s) as [|d r] eqn:Hr.
  - by destruct (isspace c) eqn:Hc; simpl.
  - exact IH.
Qed.

Lemma rstrip_fixed (s : string) : trailing_space s = false → rstrip s = s.
Proof.
  induction s as [|c s IH]; [done|]. cbn [rstrip].
  destruct s as [|d s].
  - simpl. by intros ->.
  - intros Ht. rewrite IH by exact Ht. done.
Qed.

Lemma isdigit_isnumeric (s : string) : isnumeric s = false → isdigit s = false.
Proof.
  unfold isnumeric, isdigit. destruct s as [|c s]; [done|]. simpl nonempty.
  rewrite !andb_true_l. intros Hn. apply not_true_is_false. intros Hd.
  enough (all_chars isnumeric_char (String c s) = true) by congruence.
  clear Hn. revert Hd. generalize (String c s). intros t.
  induction t as [|a t IH]; [done|]. cbn [all_chars].
  intros [Ha Ht]%andb_prop. rewrite (IH Ht). unfold isnumeric_char.
  by rewrite Ha.
Qed.

Lemma cleaned_no_run (s : string) : leader_run3 (rstrip (sub_leaders s)) = false.
Proof.
  destruct (rstrip_prefix (sub_leaders s)) as [suf Hsuf].
  apply (leader_run3_prefix _ suf). rewrite <- Hsuf.
  apply sub_leaders_from_no_run.
Qed.

(** A returned text is the stripped substitution of the stored string. *)
Lemma text_some_inv (e : InterimElement.t) (r : string) :
  InterimElement.text e = Ok (Some r) →
  ∃ s, r = rstrip (sub_leaders s) ∧ r ≠ "" ∧ isnumeric r = false.
Proof.
  unfold InterimElement.text.
  destruct (InterimElement.raw e !! "Text") as [v|]; [|done].
  destruct (truthy v); [|done]. destruct v as [| | |s| |]; try done.
  destruct (isnumeric (rstrip (sub_leaders s))) eqn:Hnum; [done|].
  destruct (isdigit (rstrip (sub_leaders s))); [done|]. cbn [orb].
  case_bool_decide as Hempty; [done|]. cbn [orb].
  case_bool_decide; [done|]. intros [= <-]. by exists s.
Qed.

(** X4: a text returned by the cleanup is not empty, does not end with
    whitespace, is not numeric and holds no run of three dots or
    underscores. *)
Theorem text_is_clean (e : InterimElement.t) (r : string) :
  InterimElement.text e = Ok (Some r) →
  r ≠ "" ∧ trailing_space r = false ∧ isnumeric r = false
  ∧ leader_run3 r = false.
Proof.
  intros (s & -> & Hne & Hnum)%text_some_inv.
  repeat split; [done | apply rstrip_trailing | done | apply cleaned_no_run].
Qed.

Lemma text_is_clean_witness :
  InterimElement.text (InterimElement.of_text "Total.... 42 __ ")
  = Ok (Some "Total 42 __")
  ∧ "Total 42 __" ≠ "" ∧ trailing_space "Total 42 __" = false
  ∧ isnumeric "Total 42 __" = false ∧ leader_run3 "Total 42 __" = false.
Proof.
  split; [reflexivity|].
  exact (text_is_clean (InterimElement.of_text "Total.... 42 __ ") _ eq_refl).
Defined.

(** Without a run of three leader characters the substitution changes
    nothing. *)
Lemma sub_leaders_from_fixed (run s : string) :
  all_chars is_leader run = true → String.length run ≤ 2 →
  leader_run3 (run +:+ s) = false →
  sub_leaders_from run s = run +:+ s.
Proof.
  revert run. induction s as [|c s IH]; intros run Hall Hlen Hrun;
    cbn [sub_leaders_from].
  - rewrite append_empty_r. unfold flush_run.
    by destruct (Nat.leb_spec 3 (String.length run)); [lia|].
  - destruct (is_leader c) eqn:Hc.
    + rewrite IH.
      * by rewrite append_assoc.
      * by rewrite all_chars_app, Hall; simpl; rewrite Hc.
      * destruct run as [|a [|b [|d run]]]; simpl in *; try lia.
        apply andb_prop in Hall as [Ha Hall].
        apply andb_prop in Hall as [Hb _].
        by rewrite Ha, Hb, Hc in Hrun.
      * by rewrite append_assoc.
    + unfold flush_run.
      destruct (Nat.leb_spec 3 (String.length run)); [lia|].
      f_equal. f_equal. apply (IH ""); [done | simpl; lia |].
      apply leader_run3_suffix in Hrun. cbn [leader_run3] in Hrun.
      by apply orb_false_elim in Hrun as [_ ?].
Qed.

Lemma cleaned_fixed (s : string) :
  trailing_space s = false → leader_run3 s = false →
  rstrip (sub_leaders s) = s.
Proof.
  intros Htrail Hrun. unfold sub_leaders.
  rewrite (sub_leaders_from_fixed "") by (done || simpl; lia).
  change ("" +:+ s) with s. by apply rstrip_fixed.
Qed.

(** The cleanup of an element that stores a non-empty string whose
    stripped substitution is itself. *)
Lemma text_of_fixed (s : string) :
  s ≠ "" → rstrip (sub_leaders s) = s → isnumeric s = false →
  trailing_space s = false →
  InterimElement.text (InterimElement.of_text s) = Ok (Some s).
Proof.
  intros Hne Hfixed Hnum Htrail.
  unfold InterimElement.text, InterimElement.of_text. simpl.
  rewrite lookup_singleton_eq. cbn [truthy].
  destruct s as [|c s]; [done|]. simpl nonempty. cbv iota.
  rewrite Hfixed, Hnum, (isdigit_isnumeric _ Hnum). cbn [orb].
  rewrite bool_decide_eq_false_2 by done. cbn [orb].
  rewrite bool_decide_eq_false_2; [done|].
  intros Heq. by rewrite Heq in Htrail.
Qed.

(** X5: a text that is not empty, does not end with whitespace, is not
    numeric and holds no run of three dots or underscores is returned as
    it is. *)
Theorem text_keeps_clean (s : string) :
  s ≠ "" → trailing_space s = false → isnumeric s = false →
  leader_run3 s = false →
  InterimElement.text (InterimElement.of_text s) = Ok (Some s).
Proof.
  intros Hne Htrail Hnum Hrun.
  apply text_of_fixed; [done| |done|done].
  by apply cleaned_fixed.
Qed.

Lemma text_keeps_clean_witness :
  "Revenue grew 42%" ≠ "" ∧ trailing_space "Revenue grew 42%" = false
  ∧ isnumeric "Revenue grew 42%" = false ∧ leader_run3 "Revenue grew 42%" = false
  ∧ InterimElement.text (InterimElement.of_text "Revenue grew 42%")
    = Ok (Some "Revenue grew 42%").
Proof.
  do 4 (split; [done|]).
  by apply (text_keeps_clean "Revenue grew 42%").
Defined.

(** X6: the cleanup is idempotent: cleaning a text that the cleanup
    returned returns it again. *)
Theorem text_idempotent (e : InterimElement.t) (r : string) :
  InterimElement.text e = Ok (Some r) →
  InterimElement.text (InterimElement.of_text r) = Ok (Some r).
Proof.
  intros (s & Hr & Hne & Hnum)%text_some_inv.
  assert (trailing_space r = false) as Htrail by (rewrite Hr; apply rstrip_trailing).
  assert (leader_run3 r = false) as Hrun by (rewrite Hr; apply cleaned_no_run).
  apply text_of_fixed; [done| |done|done].
  by apply cleaned_fixed.
Qed.

Lemma text_idempotent_witness :
  InterimElement.text (InterimElement.of_text "Total.... 42 __ ")
  = Ok (Some "Total 42 __")
  ∧ InterimElement.text (InterimElement.of_text "Total 42 __")
    = Ok (Some "Total 42 __").
Proof.
  split; [reflexivity|].
  exact (text_idempotent (InterimElement.of_text "Total.... 42 __ ") _ eq_refl).
Defined.

(** X7: the cleanup raises exactly when the raw element stores under
    ["Text"] a value that is true in a condition and is not a string; an
    element without that key, or with a false value there, has no text. *)
Theorem text_raises_iff (e : InterimElement.t) :
  (is_ok (InterimElement.text e) = false
   ↔ ∃ v, InterimElement.raw e !! "Text" = Some v ∧ truthy v = true
          ∧ ∀ s, v ≠ PStr s)
  ∧ (∀ v, InterimElement.raw e !! "Text" = Some v → truthy v = false →
       InterimElement.text e = Ok None)
  ∧ (InterimElement.raw e !! "Text" = None → InterimElement.text e = Ok None).
Proof.
  unfold InterimElement.text.
  destruct (InterimElement.raw e !! "Text") as [v|]; [|split; [|done]].
  - split; [|split; [|done]].
    + destruct (truthy v) eqn:Hv.
      * destruct v as [| | |s| |];
          try (split; [intros _; eexists; by repeat split | done]).
        split.
        -- repeat (match goal with
                   | |- context [if ?b then _ else _] => destruct b
                   end); done.
        -- intros (v & [= <-] & _ & Hs). by destruct (Hs s).
      * split; [done|]. intros (v' & [= <-] & Hv' & _). congruence.
    + intros v' [= <-] ->. done.
  - split; [done|]. by intros (v & [=] & _).
Qed.

Lemma text_raises_iff_witness :
  let e := {| InterimElement.raw := {[ "Text" := PInt 7 ]};
              InterimElement.is_aside := false; InterimElement.path := "" |} in
  (∃ v, InterimElement.raw e !! "Text" = Some v ∧ truthy v = true
        ∧ ∀ s, v ≠ PStr s)
  ∧ is_ok (InterimElement.text e) = false.
Proof.
  intros e.
  assert (∃ v, InterimElement.raw e !! "Text" = Some v ∧ truthy v = true
               ∧ ∀ s, v ≠ PStr s) as Hv.
  { exists (PInt 7). by repeat split. }
  split; [exact Hv|].
  exact (proj2 (proj1 (text_raises_iff e)) Hv).
Defined.

(** ** llm.py: FetchSectionsTool._run *)

Lemma comprehension_is_ok {A B} (f : A → result B) (l : list A) :
  is_ok (comprehension f l) = true ↔ Forall (λ x, is_ok (f x) = true) l.
Proof.
  induction l as [|x l IH]; [done|].
  rewrite comprehension_cons, Forall_cons, <- IH.
  destruct (f x); simpl; [|by split; [|intros [? _]]].
  destruct (comprehension f l); simpl; by split; [|intros [_ ?]].
Qed.

Lemma resolve_inv (m : gmap string pyobj) (k : string) (r : SectionRecord) :
  resolve m k = Ok r ↔
  ∃ s t x, m !! k = Some (ObjSection s) ∧ title s = Some t
           ∧ extra s !! "text" = Some x
           ∧ r = {| rec_title := lstrip (sub_numbering t);
                    rec_id := id s; rec_text := x |}.
Proof.
  unfold resolve, getitem, FetchSectionsTool.section_record.
  destruct (m !! k) as [[| | |s]|] eqn:Hk; simpl;
    try (split; [done | by intros (? & ? & ? & [=] & _)]).
  unfold title_clean, Section_attr.
  destruct (title s) as [t|] eqn:Ht; simpl.
  - destruct (extra s !! "text") as [x|] eqn:Hx; simpl.
    + split.
      * intros [= <-]. by exists s, t, x.
      * intros (s' & t' & x' & [= <-] & Ht' & Hx' & ->). congruence.
    + split; [done|]. intros (s' & t' & x' & [= <-] & _ & Hx' & _). congruence.
  - split; [done|]. intros (s' & t' & x' & [= <-] & Ht' & _). congruence.
Qed.

Lemma resolve_is_ok (m : gmap string pyobj) (k : string) :
  is_ok (resolve m k) = true ↔ fetchable m k.
Proof.
  unfold fetchable. destruct (resolve m k) as [r|e] eqn:Hr; simpl.
  - apply resolve_inv in Hr as (s & t & x & Hk & Ht & Hx & _).
    split; [|done]. intros _. exists s. rewrite Ht, Hx. eauto.
  - split; [done|]. intros (s & Hk & [t Ht] & [x Hx]).
    assert (resolve m k = Ok {| rec_title := lstrip (sub_numbering t);
                                rec_id := id s; rec_text := x |}) as Hok.
    { apply resolve_inv. by exists s, t, x. }
    congruence.
Qed.

(** X8: the fetch tool returns records exactly when every id of the list
    is stored with a section that has a title and an attached text; any
    other id in the list makes the call raise. *)
Theorem fetch_succeeds_iff (m : gmap string pyobj) (reasoning : string)
    (ids : list string) :
  is_ok (FetchSectionsTool._run m reasoning ids) = true
  ↔ ∀ k, k ∈ ids → fetchable m k.
Proof.
  rewrite run_comprehension, comprehension_is_ok, Forall_forall.
  split; intros H k Hk; apply resolve_is_ok, H.
  - by rewrite sorted_Permutation.
  - by rewrite <- sorted_Permutation.
Qed.

(** X9: the records returned by the fetch tool stand one for one for the
    ids taken in ascending order, repeated ids included; each record
    holds the clean title, the id attribute and the attached text of the
    section stored under the id. *)
Theorem fetch_records (m : gmap string pyobj) (reasoning : string)
    (ids : list string) (recs : list SectionRecord) :
  FetchSectionsTool._run m reasoning ids = Ok recs →
  length recs = length ids
  ∧ Forall2
      (λ k r, ∃ s t x,
         m !! k = Some (ObjSection s) ∧ title s = Some t
         ∧ extra s !! "text" = Some x
         ∧ r = {| rec_title := lstrip (sub_numbering t);
                  rec_id := id s; rec_text := x |})
      (sorted ids) recs.
Proof.
  rewrite run_comprehension. intros Hrecs%comprehension_ok. split.
  - rewrite <- (Forall2_length _ _ _ Hrecs).
    apply Permutation_length, sorted_Permutation.
  - eapply Forall2_impl; [exact Hrecs|]. intros k r. apply resolve_inv.
Qed.

Lemma fetch_records_witness :
  let recs :=
    [ {| rec_title := "Revenue"; rec_id := "1.1"; rec_text := "Revenue grew 42%" |};
      {| rec_title := "Revenue"; rec_id := "1.1"; rec_text := "Revenue grew 42%" |};
      {| rec_title := "Outlook"; rec_id := "2.2"; rec_text := "Growth is expected" |} ] in
  FetchSectionsTool._run sample_sections "" ["1.1"; "2.2"; "1.1"] = Ok recs
  ∧ length recs = length ["1.1"; "2.2"; "1.1"].
Proof.
  intros recs. split; [reflexivity|].
  exact (proj1 (fetch_records sample_sections "" ["1.1"; "2.2"; "1.1"] recs eq_refl)).
Defined.

(** ** llm.py: DocumentStructuredMetadata *)

Lemma nodes_unfold (t : Section) :
  nodes t = t :: flat_map nodes (subsections t).
Proof. by destruct t. Qed.

Lemma section_ids_of_unfold (t : Section) :
  section_ids_of t
  = ((if bool_decide (section_type t = Some "document") then [] else [id t])
     ++ flat_map section_ids_of (subsections t))%list.
Proof. by destruct t. Qed.

Lemma comprehension_ext {A B} (f g : A → result B) (l : list A) :
  (∀ x, x ∈ l → f x = g x) → comprehension f l = comprehension g l.
Proof.
  induction l as [|x l IH]; intros Hfg; [done|].
  rewrite !comprehension_cons, (Hfg x) by left.
  rewrite IH; [done|]. intros y Hy. apply Hfg. by right.
Qed.

(** What the projection of a node that is not a document is made of. *)
Lemma project_section_inv (t : Section) (m : gmap string pyobj) (v : pyval) :
  section_type t ≠ Some "document" →
  project t m = Ok v →
  ∃ o c s subs,
    m !! id t = Some o ∧ title_clean t = Ok c ∧ attr_summary o = Ok s
    ∧ Forall2 (λ ch j, project ch m = Ok j) (subsections t) subs
    ∧ v = PDict
            ([ ("title", PStr c); ("id", PStr (id t));
               ("pages", PList (PInt <$> sorted_ints (elements (pages t))));
               ("summary", optional_str s) ]
             ++ match subsections t with
                | [] => []
                | _ => [ ("sections", PList subs) ]
                end)%list.
Proof.
  intros Ht. rewrite project_section by done. unfold getitem.
  destruct (m !! id t) as [o|] eqn:Ho; [simpl|done].
  destruct (title_clean t) as [c|] eqn:Hc; [simpl|done].
  destruct (attr_summary o) as [s|] eqn:Hs; [simpl|done].
  destruct (comprehension _ (subsections t)) as [subs|] eqn:Hsubs; [simpl|done].
  apply comprehension_ok in Hsubs. intros Hv.
  exists o, c, s, subs. do 4 (split; [done|]).
  destruct Hsubs; by injection Hv as <-.
Qed.

(** X10: the projection of a node that is not a document is a record with
    the fields title (the clean title), id, pages and summary, in that
    order, followed by the field sections exactly when the node has
    subsections; it is returned exactly when the id is stored with a
    value that has a summary, the node has a title and every subsection
    has a projection. *)
Theorem project_section_record (t : Section) (m : gmap string pyobj) (v : pyval) :
  section_type t ≠ Some "document" →
  project t m = Ok v
  ↔ ∃ o c s subs,
      m !! id t = Some o ∧ title_clean t = Ok c ∧ attr_summary o = Ok s
      ∧ Forall2 (λ ch j, project ch m = Ok j) (subsections t) subs
      ∧ v = PDict
              ([ ("title", PStr c); ("id", PStr (id t));
                 ("pages", PList (PInt <$> sorted_ints (elements (pages t))));
                 ("summary", optional_str s) ]
               ++ match subsections t with
                  | [] => []
                  | _ => [ ("sections", PList subs) ]
                  end)%list.
Proof.
  intros Ht. split; [by apply project_section_inv|].
  intros (o & c & s & subs & Ho & Hc & Hs & Hsubs & ->).
  rewrite project_section by done. unfold getitem. rewrite Ho. simpl.
  rewrite Hc. simpl. rewrite Hs. simpl.
  pose proof Hsubs as Hcomp. apply comprehension_ok in Hcomp. rewrite Hcomp.
  simpl. by destruct Hsubs.
Qed.

Lemma project_section_record_witness :
  section_type section_1_1 ≠ Some "document"
  ∧ project section_1_1 sample_outputs
    = Ok (PDict [ ("title", PStr "Revenue"); ("id", PStr "1.1");
                  ("pages", PList [PInt 1; PInt 2]);
                  ("summary", PStr "Revenue is up") ]).
Proof.
  assert (section_type section_1_1 ≠ Some "document") as Ht by done.
  split; [exact Ht|].
  apply (project_section_record section_1_1 sample_outputs _ Ht).
  exists (ObjSummaryOutput {| summary := Some "Revenue is up" |}),
    "Revenue", (Some "Revenue is up"), [].
  repeat split. constructor.
Defined.

(** X11: the pages of a projected section are its pages in ascending
    order, each once. *)
Theorem project_pages (t : Section) (m : gmap string pyobj) (v : pyval) :
  section_type t ≠ Some "document" →
  project t m = Ok v →
  ∃ ps, dict_get v "pages" = Some (PList (PInt <$> ps))
        ∧ Sorted Z.le ps ∧ NoDup ps ∧ ∀ p, p ∈ ps ↔ p ∈ pages t.
Proof.
  intros Ht (o & c & s & subs & _ & _ & _ & _ & ->)%project_section_inv; [|done].
  exists (sorted_ints (elements (pages t))). unfold sorted_ints.
  pose proof (merge_sort_Permutation Z.le (elements (pages t))) as Hp.
  split; [done|]. split; [apply Sorted_merge_sort, _|]. split.
  - rewrite Hp. apply NoDup_elements.
  - intros p. by rewrite Hp, elem_of_elements.
Qed.

Lemma project_pages_witness :
  section_type section_1_1 ≠ Some "document"
  ∧ project section_1_1 sample_outputs
    = Ok (PDict [ ("title", PStr "Revenue"); ("id", PStr "1.1");
                  ("pages", PList [PInt 1; PInt 2]);
                  ("summary", PStr "Revenue is up") ])
  ∧ ∃ ps, Sorted Z.le ps ∧ NoDup ps ∧ ∀ p, p ∈ ps ↔ p ∈ pages section_1_1.
Proof.
  assert (section_type section_1_1 ≠ Some "document") as Ht by done.
  split; [exact Ht|]. split; [reflexivity|].
  destruct (project_pages section_1_1 sample_outputs _ Ht eq_refl)
    as (ps & _ & Hps).
  by exists ps.
Defined.

Lemma ids_in_pages (ps : list Z) : flat_map ids_in (PInt <$> ps) = [].
Proof. induction ps as [|p ps IH]; [done|]. by rewrite fmap_cons. Qed.

Lemma ids_in_optional_str (o : option string) : ids_in (optional_str o) = [].
Proof. by destruct o. Qed.

Lemma ids_in_children (m : gmap string pyobj) (cs : list Section)
    (js : list pyval) :
  Forall (λ c, ∀ j, project c m = Ok j → ids_in j = section_ids_of c) cs →
  Forall2 (λ c j, project c m = Ok j) cs js →
  flat_map ids_in js = flat_map section_ids_of cs.
Proof.
  intros IH Hjs. induction Hjs as [|c j cs js Hj _ IHjs]; [done|].
  apply Forall_cons in IH as [Hc IH]. simpl.
  by rewrite (Hc j Hj), IHjs.
Qed.

(** X12: the ids found in a projection are the ids of the nodes of the
    tree that are not documents, each node once, in pre-order. *)
Theorem project_ids (t : Section) (m : gmap string pyobj) (v : pyval) :
  project t m = Ok v → ids_in v = section_ids_of t.
Proof.
  revert v. induction t as [t IH] using Section_tree_ind. intros v Hv.
  rewrite section_ids_of_unfold.
  destruct (decide (section_type t = Some "document")) as [Ht|Ht].
  - rewrite bool_decide_eq_true_2 by done.
    rewrite project_document in Hv by done.
    destruct (comprehension _ (subsections t)) as [subs|] eqn:Hsubs; [|done].
    apply comprehension_ok in Hsubs. injection Hv as <-.
    rewrite <- (ids_in_children m _ _ IH Hsubs). simpl.
    by rewrite ids_in_optional_str, !app_nil_r.
  - rewrite bool_decide_eq_false_2 by done.
    apply project_section_inv in Hv
      as (o & c & s & subs & _ & _ & _ & Hsubs & ->); [|done].
    rewrite <- (ids_in_children m _ _ IH Hsubs).
    destruct Hsubs as [|ch j chs js]; simpl;
      by rewrite ids_in_pages, ids_in_optional_str, ?app_nil_r.
Qed.

Lemma project_ids_witness :
  project sample_document sample_outputs
  = Ok (PDict
          [ ("document",
             PDict
               [ ("title", PStr "Annual report");
                 ("sections",
                  PList
                    [ PDict [ ("title", PStr "Revenue"); ("id", PStr "1.1");
                              ("pages", PList [PInt 1; PInt 2]);
                              ("summary", PStr "Revenue is up") ];
                      PDict [ ("title", PStr "Outlook"); ("id", PStr "2.2");
                              ("pages", PList [PInt 3]);
                              ("summary", PNone) ] ]) ]) ])
  ∧ section_ids_of sample_document = ["1.1"; "2.2"].
Proof.
  split; [reflexivity|].
  by rewrite <- (project_ids sample_document sample_outputs _ eq_refl).
Defined.

Lemma is_ok_true {A} (r : result A) : is_ok r = true ↔ ∃ a, r = Ok a.
Proof.
  destruct r as [a|e]; simpl; split; [by exists a | done | done | by intros [? ?]].
Qed.

(** A projection that is returned has emitted every node. *)
Lemma project_ok_nodes (t : Section) (m : gmap string pyobj) :
  is_ok (project t m) = true → Forall (projectable m) (nodes t).
Proof.
  induction t as [t IH] using Section_tree_ind. intros Hok.
  rewrite nodes_unfold. apply is_ok_true in Hok as [v Hv].
  assert (∀ subs, Forall2 (λ ch j, project ch m = Ok j) (subsections t) subs →
            Forall (projectable m) (flat_map nodes (subsections t))) as Hchildren.
  { intros subs Hsubs. apply Forall_flat_map.
    apply Forall_forall. intros ch Hch.
    apply (proj1 (Forall_forall _ _) IH ch Hch).
    apply list_elem_of_lookup in Hch as [i Hi].
    destruct (Forall2_lookup_l _ _ _ _ _ Hsubs Hi) as (j & _ & Hj).
    by rewrite Hj. }
  destruct (decide (section_type t = Some "document")) as [Ht|Ht].
  - rewrite project_document in Hv by done.
    destruct (comprehension _ (subsections t)) as [subs|] eqn:Hsubs; [|done].
    apply comprehension_ok in Hsubs.
    apply Forall_cons. split; [by left | by apply (Hchildren subs)].
  - apply project_section_inv in Hv
      as (o & c & s & subs & Ho & Hc & Hs & Hsubs & _); [|done].
    apply Forall_cons. split; [|by apply (Hchildren subs)].
    right. split.
    + apply title_clean_ok_iff. by rewrite Hc.
    + exists o. by rewrite Hs.
Qed.

(** X13: the projection of a tree is returned exactly when every node that
    is not a document has a title and an id stored with a value that has
    a summary; any other node makes the whole projection raise. *)
Theorem project_succeeds_iff (t : Section) (m : gmap string pyobj) :
  is_ok (project t m) = true ↔ Forall (projectable m) (nodes t).
Proof.
  split; [apply project_ok_nodes|].
  induction t as [t IH] using Section_tree_ind.
  rewrite nodes_unfold, Forall_cons, Forall_flat_map.
  intros [Ht Hchildren].
  assert (is_ok (comprehension (λ c, project c m) (subsections t)) = true)
    as Hcomp.
  { apply comprehension_is_ok, Forall_forall. intros ch Hch.
    by apply (proj1 (Forall_forall _ _) IH ch Hch),
             (proj1 (Forall_forall _ _) Hchildren ch Hch). }
  apply is_ok_true in Hcomp as [subs Hsubs].
  destruct (decide (section_type t = Some "document")) as [Hd|Hd].
  - by rewrite project_document, Hsubs.
  - destruct Ht as [Ht|[[c Hc] (o & Ho & Hs)]]; [done|].
    apply is_ok_true in Hs as [s Hs].
    rewrite project_section by done. unfold getitem, title_clean.
    rewrite Ho, Hc. simpl. rewrite Hs. simpl. rewrite Hsubs. simpl.
    by destruct subs.
Qed.

(** X14: on a mapping whose values are optional strings the projection is
    returned only for trees made of documents alone: with any other node
    in the tree, it raises. *)
Theorem project_needs_summary_objects (t : Section) (m : gmap string pyobj)
    (v : pyval) :
  (∀ k o, m !! k = Some o → o = ObjNone ∨ ∃ s, o = ObjStr s) →
  project t m = Ok v →
  Forall (λ n, section_type n = Some "document") (nodes t).
Proof.
  intros Hshape Hv.
  assert (is_ok (project t m) = true) as Hok by (by rewrite Hv).
  apply project_ok_nodes in Hok.
  eapply Forall_impl; [exact Hok|]. intros n [Hn|[_ (o & Ho & Hs)]]; [done|].
  by destruct (Hshape _ _ Ho) as [->|[s ->]].
Qed.

Lemma project_needs_summary_objects_witness :
  let t := Document_init (Some "Cover") None None None None in
  (∀ k o, sample_summaries !! k = Some o → o = ObjNone ∨ ∃ s, o = ObjStr s)
  ∧ project t sample_summaries
    = Ok (PDict [ ("document",
                   PDict [ ("title", PStr "Cover"); ("sections", PList []) ]) ])
  ∧ Forall (λ n, section_type n = Some "document") (nodes t).
Proof.
  intros t.
  assert (∀ k o, sample_summaries !! k = Some o → o = ObjNone ∨ ∃ s, o = ObjStr s)
    as Hshape.
  { intros k o. unfold sample_summaries.
    rewrite lookup_insert. case_decide; [intros [= <-]; eauto|].
    rewrite lookup_singleton. case_decide; [intros [= <-]; eauto|done]. }
  split; [exact Hshape|]. split; [reflexivity|].
  exact (project_needs_summary_objects t sample_summaries _ Hshape eq_refl).
Defined.

(** X15: the projection reads the mapping only at the ids of the nodes of
    the tree that are not documents: two mappings that agree there give
    the same outcome. *)
Theorem project_frame (t : Section) (m m' : gmap string pyobj) :
  (∀ n, n ∈ nodes t → section_type n ≠ Some "document" →
     m !! id n = m' !! id n) →
  project t m = project t m'.
Proof.
  induction t as [t IH] using Section_tree_ind. intros Hagree.
  assert (comprehension (λ c, project c m) (subsections t)
          = comprehension (λ c, project c m') (subsections t)) as Hcomp.
  { apply comprehension_ext. intros ch Hch.
    apply (proj1 (Forall_forall _ _) IH ch Hch). intros n Hn.
    apply Hagree. rewrite nodes_unfold. right.
    apply list_elem_of_In, in_flat_map. exists ch.
    by rewrite <- !list_elem_of_In. }
  destruct (decide (section_type t = Some "document")) as [Ht|Ht].
  - by rewrite !project_document, Hcomp.
  - rewrite !project_section, Hcomp by done.
    unfold getitem. rewrite (Hagree t); [done| |done]. rewrite nodes_unfold. left.
Qed.

Lemma project_frame_witness :
  (∀ n, n ∈ nodes sample_document → section_type n ≠ Some "document" →
     sample_outputs !! id n
     = (<["" := ObjNone]> sample_outputs : gmap string pyobj) !! id n)
  ∧ project sample_document sample_outputs
    = project sample_document (<["" := ObjNone]> sample_outputs).
Proof.
  assert (∀ n, n ∈ nodes sample_document → section_type n ≠ Some "document" →
            sample_outputs !! id n
            = (<["" := ObjNone]> sample_outputs : gmap string pyobj) !! id n)
    as Hagree.
  { intros n Hn. unfold sample_document, Document_init, Section_init in Hn.
    simpl in Hn.
    repeat (apply elem_of_cons in Hn as [->|Hn]); try done.
    by apply elem_of_nil in Hn. }
  split; [exact Hagree|].
  exact (project_frame sample_document sample_outputs _ Hagree).
Defined.

(** ** llm.py: OpenAIPromptExecutor.create_summaries_chain *)

(** One round of the summary loop, when it does not raise: the entry of
    the section is written, and the model is asked once exactly when the
    text is not empty. *)
Lemma summarize_section_inv (model : ChatOpenAI)
    (d0 d1 : gmap string (option string)) (s : Section)
    (log log1 : list request) :
  summarize_section model d0 s log = Ok (d1, log1) →
  ∃ v, summary_entry model s v ∧ d1 = <[id s := v]> d0
       ∧ length log1 = length log + (if needs_request s then 1 else 0).
Proof.
  unfold summarize_section, summary_entry, needs_request, Section_attr.
  unfold mbind, exec_bind, lift, invoke, mret, exec_ret.
  destruct (extra s !! "text") as [x|]; [|done].
  destruct (0 <? String.length x) eqn:Hx.
  - destruct (title_clean s) as [t|]; [|done].
    destruct (summary_runnable model t x) as [r|] eqn:Hr; [|done].
    intros [= <- <-]. exists (summary r). split; [|split; [done|]].
    + exists x. rewrite Hx. split; [done|]. by exists t, r.
    + rewrite length_app. simpl. lia.
  - intros [= <- <-]. exists None. split; [|split; [done|lia]].
    exists x. by rewrite Hx.
Qed.

Lemma summary_loop_inv (model : ChatOpenAI) (sections : list Section)
    (d0 d : gmap string (option string)) (log log' : list request) :
  for_in sections (summarize_section model) d0 log = Ok (d, log') →
  length log' = length log + length (filter needs_request sections)
  ∧ dom d = dom d0 ∪ list_to_set (id <$> sections)
  ∧ (∀ k, k ∉ id <$> sections → d !! k = d0 !! k)
  ∧ (NoDup (id <$> sections) →
     ∀ s, s ∈ sections → ∃ v, d !! id s = Some v ∧ summary_entry model s v).
Proof.
  revert d0 log. induction sections as [|s sections IH]; intros d0 log.
  - intros [= <- <-]. split; [simpl; lia|]. split; [|split; [done|]].
    + rewrite fmap_nil, list_to_set_nil. by rewrite (right_id_L ∅ (∪)).
    + by intros _ s ?%elem_of_nil.
  - cbn [for_in]. unfold mbind at 1, exec_bind.
    destruct (summarize_section model d0 s log) as [[d1 log1]|] eqn:Hs; [|done].
    apply summarize_section_inv in Hs as (v & Hv & -> & Hlog).
    intros (Hlen & Hdom & Hout & Hin)%IH.
    rewrite fmap_cons. split; [|split; [|split]].
    + rewrite filter_cons. destruct (needs_request s) eqn:Hn.
      * simpl. lia.
      * simpl. lia.
    + rewrite Hdom, dom_insert_L, list_to_set_cons.
      by rewrite (comm_L (∪) {[id s]} (dom d0)), !(assoc_L (∪)).
    + intros k [Hk Hks]%not_elem_of_cons.
      rewrite (Hout k Hks). by rewrite lookup_insert_ne.
    + intros [Hs Hnd]%NoDup_cons s' [->|Hs']%elem_of_cons; [|by apply Hin].
      exists v. split; [|done]. rewrite (Hout _ Hs). apply lookup_insert_eq.
Qed.

(** X16: when [create_summaries_chain] returns, the executor has counted
    one request for each section whose text is not empty and none for
    the others, and its model is unchanged. *)
Theorem create_summaries_chain_requests (self self' : OpenAIPromptExecutor)
    (sections : list Section) (r : option (gmap string (option string))) :
  create_summaries_chain self sections = Ok (r, self') →
  llm self' = llm self
  ∧ n_successful_requests self'
    = n_successful_requests self + length (filter needs_request sections).
Proof.
  unfold create_summaries_chain, track_costs, create_summaries_chain_body.
  unfold mbind, exec_bind, summary_dict_after_loop.
  destruct (for_in sections (summarize_section (llm self)) ∅ [])
    as [[d cb]|] eqn:Hloop; [|done].
  apply summary_loop_inv in Hloop as (Hlen & _).
  unfold mret, exec_ret. intros Heq. simplify_eq/=. split; [done|].
  by rewrite Hlen.
Qed.

Lemma create_summaries_chain_requests_witness :
  let empty_section :=
    {| id := "3"; title := None; pages := ∅; section_type := None;
       paragraphs := []; parent := None; subsections := [];
       extra := {[ "text" := "" ]} |} in
  let sections := [section_1_1; empty_section; section_2_2] in
  let self := new_executor (citing_model direct_answer) in
  let self' :=
    {| llm := citing_model direct_answer; n_successful_requests := 2 |} in
  create_summaries_chain self sections = Ok (None, self')
  ∧ llm self' = llm self
  ∧ n_successful_requests self'
    = n_successful_requests self + length (filter needs_request sections).
Proof.
  intros empty_section sections self self'. split; [reflexivity|].
  exact (create_summaries_chain_requests self self' sections None eq_refl).
Defined.

(** X17: when the summary loop ends, the keys of [summary_dict] are the
    ids of the sections; if these ids are distinct, a section whose text
    is empty is stored with no summary, and any other section with the
    summary the model returned for its clean title and its text. *)
Theorem summary_dict_entries (model : ChatOpenAI) (sections : list Section)
    (d : gmap string (option string)) (log log' : list request) :
  summary_dict_after_loop model sections log = Ok (d, log') →
  dom d = list_to_set (id <$> sections)
  ∧ (NoDup (id <$> sections) →
     ∀ s, s ∈ sections → ∃ v, d !! id s = Some v ∧ summary_entry model s v).
Proof.
  unfold summary_dict_after_loop.
  intros (_ & Hdom & _ & Hin)%summary_loop_inv. split; [|done].
  by rewrite Hdom, dom_empty_L, (left_id_L ∅ (∪)).
Qed.

Lemma summary_dict_entries_witness :
  summary_dict_after_loop (citing_model direct_answer) [section_1_1; section_2_2] []
  = Ok ({[ "1.1" := None; "2.2" := None ]},
        [ReqSummary "Revenue" "Revenue grew 42%";
         ReqSummary "Outlook" "Growth is expected"])
  ∧ dom ({[ "1.1" := None; "2.2" := None ]} : gmap string (option string))
    = list_to_set (id <$> [section_1_1; section_2_2]).
Proof.
  split; [reflexivity|].
  exact (proj1 (summary_dict_entries (citing_model direct_answer)
                  [section_1_1; section_2_2] _ [] _ eq_refl)).
Defined.

Lemma summarize_section_no_text (model : ChatOpenAI)
    (d : gmap string (option string)) (s : Section) (log : list request) :
  extra s !! "text" = None →
  summarize_section model d s log = Err (AttributeError "Section" "text").
Proof.
  intros Hs. unfold summarize_section, Section_attr, mbind, exec_bind, lift.
  by rewrite Hs.
Qed.

Lemma create_summaries_chain_body_loop (model : ChatOpenAI)
    (sections : list Section) (log : list request) :
  create_summaries_chain_body sections model log
  = match for_in sections (summarize_section model) ∅ log with
    | Ok (_, log') => Ok (None, log')
    | Err e => Err e
    end.
Proof. reflexivity. Qed.

(** X18: a section without an attached text, such as any section as its
    constructor builds it, makes [create_summaries_chain] raise, whatever
    the other sections are; when it is the first section the exception is
    the AttributeError of [text]. *)
Theorem create_summaries_chain_needs_text (self : OpenAIPromptExecutor)
    (pre post : list Section) (s : Section) :
  extra s !! "text" = None →
  (∃ e, create_summaries_chain self (pre ++ s :: post) = Err e)
  ∧ create_summaries_chain self (s :: post)
    = Err (AttributeError "Section" "text").
Proof.
  intros Hs.
  assert (∀ d log, ∃ e,
            for_in (pre ++ s :: post) (summarize_section (llm self)) d log = Err e)
    as Hloop.
  { induction pre as [|p pre IH]; intros d log; cbn [for_in app];
      unfold mbind at 1, exec_bind.
    - rewrite summarize_section_no_text by done. by eexists.
    - destruct (summarize_section (llm self) d p log) as [[d1 log1]|];
        [apply IH | by eexists]. }
  unfold create_summaries_chain, track_costs.
  rewrite !create_summaries_chain_body_loop. split.
  - destruct (Hloop ∅ []) as [e He]. rewrite He. by eexists.
  - cbn [for_in]. unfold mbind at 1, exec_bind.
    by rewrite summarize_section_no_text.
Qed.

Lemma create_summaries_chain_needs_text_witness :
  let s := Section_init "1.1" (Some "1.1 Revenue") None None None None None in
  extra s !! "text" = None
  ∧ create_summaries_chain (new_executor (citing_model direct_answer))
      [s; section_2_2]
    = Err (AttributeError "Section" "text").
Proof.
  intros s. split; [reflexivity|].
  exact (proj2 (create_summaries_chain_needs_text
                  (new_executor (citing_model direct_answer)) []
                  [section_2_2] s eq_refl)).
Defined.

(** ** The two lookups on an id that is not stored *)

(** A tree whose nodes can all be emitted has a projection. *)
Lemma projectable_nodes_ok (t : Section) (m : gmap string pyobj) :
  Forall (projectable m) (nodes t) → is_ok (project t m) = true.
Proof.
  induction t as [t IH] using Section_tree_ind.
  rewrite nodes_unfold, Forall_cons, Forall_flat_map.
  intros [Ht Hchildren].
  assert (is_ok (comprehension (λ c, project c m) (subsections t)) = true)
    as Hcomp.
  { apply comprehension_is_ok, Forall_forall. intros ch Hch.
    by apply (proj1 (Forall_forall _ _) IH ch Hch),
             (proj1 (Forall_forall _ _) Hchildren ch Hch). }
  apply is_ok_true in Hcomp as [subs Hsubs].
  destruct (decide (section_type t = Some "document")) as [Hd|Hd].
  - by rewrite project_document, Hsubs.
  - destruct Ht as [Ht|[[c Hc] (o & Ho & Hs)]]; [done|].
    apply is_ok_true in Hs as [s Hs].
    rewrite project_section by done. unfold getitem, title_clean.
    rewrite Ho, Hc. simpl. rewrite Hs. simpl. rewrite Hsubs. simpl.
    by destruct subs.
Qed.

Section first_missing.
Context (m : gmap string pyobj) (k : string) (n : Section).
Hypothesis Hmissing : m !! k = None.
Hypothesis Hkind : section_type n ≠ Some "document".
Hypothesis Hid : id n = k.

(** Among the children of a node, the one that holds [n] is the first
    whose projection raises, when the nodes met before [n] can all be
    emitted. *)
Lemma children_first_missing (cs : list Section) :
  Forall (λ c, ∀ pre post, nodes c = (pre ++ n :: post)%list →
               Forall (projectable m) pre → project c m = Err (KeyError k)) cs →
  ∀ pre post, flat_map nodes cs = (pre ++ n :: post)%list →
    Forall (projectable m) pre →
    comprehension (λ c, project c m) cs = Err (KeyError k).
Proof.
  induction cs as [|c cs IH]; intros Hcs pre post Hsplit Hpre.
  - by destruct pre.
  - apply Forall_cons in Hcs as [Hc Hcs]. rewrite comprehension_cons.
    simpl in Hsplit. apply app_eq_app in Hsplit as [l [[Hcn Hrest]|[Hp Hrest]]].
    + destruct l as [|x l].
      * rewrite app_nil_r in Hcn. simpl in Hrest.
        assert (is_ok (project c m) = true) as Hok
          by (apply projectable_nodes_ok; by rewrite Hcn).
        apply is_ok_true in Hok as [j ->]. simpl.
        by rewrite (IH Hcs [] post).
      * injection Hrest as <- _. by rewrite (Hc pre l).
    + rewrite Hp in Hpre. apply Forall_app in Hpre as [Hnc Hl].
      assert (is_ok (project c m) = true) as Hok
        by (by apply projectable_nodes_ok).
      apply is_ok_true in Hok as [j ->]. simpl.
      by rewrite (IH Hcs l post).
Qed.

(** The projection of a tree is the KeyError of the first node whose id
    is not stored, when the nodes visited before it can all be emitted. *)
Lemma project_first_missing (t : Section) (pre post : list Section) :
  nodes t = (pre ++ n :: post)%list → Forall (projectable m) pre →
  project t m = Err (KeyError k).
Proof.
  revert pre post. induction t as [t IH] using Section_tree_ind.
  intros pre post Hnodes Hpre. rewrite nodes_unfold in Hnodes.
  destruct pre as [|p pre].
  - injection Hnodes as -> _. rewrite project_section by done.
    unfold getitem. by rewrite Hid, Hmissing.
  - injection Hnodes as <- Hsplit. apply Forall_cons in Hpre as [Ht Hpre].
    pose proof (children_first_missing _ IH pre post Hsplit Hpre) as Hcomp.
    destruct (decide (section_type t = Some "document")) as [Hd|Hd].
    + by rewrite project_document, Hcomp.
    + destruct Ht as [Ht|[[c Hc] (o & Ho & Hs)]]; [done|].
      apply is_ok_true in Hs as [s Hs].
      rewrite project_section by done. unfold getitem, title_clean.
      rewrite Ho, Hc. simpl. rewrite Hs. simpl. by rewrite Hcomp.
Qed.

End first_missing.

(** C5 (amended): an id without entry in the mapping is never skipped.
    The fetch tool fails on every list that contains it, with the KeyError
    of that id when the ids sorting before it all resolve to a record.
    The projection of a tree fails whenever the id is the one of a node
    that is not a document, with the KeyError of that id when the nodes
    visited before that node, in pre-order, can all be emitted (each is a
    document, or has a title and an id stored with a summary); the
    projection of the node itself is that KeyError. *)
Theorem missing_id_fails (m : gmap string pyobj) (k : string) :
  m !! k = None →
  (∀ reasoning ids, k ∈ ids →
     (∃ e, FetchSectionsTool._run m reasoning ids = Err e)
     ∧ ((∀ j, j ∈ ids → j ≠ k → str_le j k → is_ok (resolve m j) = true) →
        FetchSectionsTool._run m reasoning ids = Err (KeyError k)))
  ∧ (∀ t n, n ∈ nodes t → section_type n ≠ Some "document" → id n = k →
     (∃ e, project t m = Err e)
     ∧ project n m = Err (KeyError k)
     ∧ ∀ pre post, nodes t = (pre ++ n :: post)%list →
         Forall (projectable m) pre → project t m = Err (KeyError k)).
Proof.
  intros Hm.
  assert (resolve m k = Err (KeyError k)) as Hr.
  { unfold resolve, getitem. by rewrite Hm. }
  split.
  - intros reasoning ids Hk. rewrite run_comprehension.
    rewrite <- sorted_Permutation in Hk. split.
    + by apply (comprehension_error _ _ k (KeyError k)).
    + intros Hbefore.
      destruct (list_elem_of_split_l _ _ Hk) as (pre & post & Hsplit & Hpre).
      pose proof (Sorted_StronglySorted _ _ (Sorted_sorted ids)) as Hs.
      rewrite Hsplit in Hs |- *.
      apply comprehension_first_error; [|done].
      apply Forall_forall. intros j Hj. apply Hbefore.
      * rewrite <- sorted_Permutation, Hsplit. apply elem_of_app. by left.
      * by intros ->.
      * eapply StronglySorted_app_1_elem_of; [exact Hs|done|left].
  - intros t n Hn Htype Hid. split; [|split].
    + apply (project_missing m n); [done | by rewrite Hid | done].
    + rewrite project_section by done. unfold getitem. by rewrite Hid, Hm.
    + intros pre post Hnodes Hpre.
      by apply (project_first_missing m k n Hm Htype Hid t pre post).
Qed.

Lemma missing_id_fails_witness :
  sample_sections !! "9.9" = None
  ∧ sample_outputs !! "9.9" = None
  ∧ FetchSectionsTool._run sample_sections "" ["9.9"; "1.1"] = Err (KeyError "9.9")
  ∧ nodes annex_document = ([annex_document; section_1_1] ++ section_9_9 :: [])%list
  ∧ Forall (projectable sample_outputs) [annex_document; section_1_1]
  ∧ project annex_document sample_outputs = Err (KeyError "9.9").
Proof.
  assert (sample_sections !! "9.9" = None) as Hm by reflexivity.
  assert (sample_outputs !! "9.9" = None) as Hm' by reflexivity.
  assert (Forall (projectable sample_outputs) [annex_document; section_1_1])
    as Hpre.
  { apply Forall_cons. split; [by left|].
    apply Forall_cons. split; [|by apply Forall_nil].
    right. split; [by eexists|]. by eexists. }
  destruct (missing_id_fails sample_sections "9.9" Hm) as [Hfetch _].
  destruct (missing_id_fails sample_outputs "9.9" Hm') as [_ Hproject].
  split; [exact Hm|]. split; [exact Hm'|]. split; [|split; [reflexivity|]].
  - apply (Hfetch "" ["9.9"; "1.1"]); [left|].
    intros j Hj Hne _.
    repeat (apply elem_of_cons in Hj as [->|Hj]); try done.
    by apply elem_of_nil in Hj.
  - split; [exact Hpre|].
    apply (Hproject annex_document section_9_9)
      with (pre := [annex_document; section_1_1]) (post := []); try done.
    unfold annex_document, Document_init, Section_init. simpl. do 2 right. left.
Defined.
